(** * MujocoEnv: the base environment adapter of mj_envs

    A shallow embedding of [mj_envs/envs/env_base.py].  The adapter glues a
    MuJoCo simulation ([mujoco_py.MjSim]), a [Robot] proxy and the
    [ObsVecDict] helper into the gym [reset]/[step] interface.  Floating
    point numbers are binary64 ([PrimFloat]), Python dictionaries are finite
    maps with string keys, Python exceptions are values of [exn], and every
    method of the class is a computation over the adapter's attributes
    ([Env]) that either returns or raises while keeping the attributes it
    has already written. *)

From Stdlib Require Import PrimFloat FloatOps FloatAxioms SpecFloat.
From Stdlib Require Import ZArith List Bool Lia.
From stdpp Require Import base option list gmap strings pretty.

Import ListNotations.
Local Open Scope string_scope.

(** ** Python exceptions and computations that may raise *)

Inductive exn : Type :=
| NotImplementedError
| KeyError (key : string)
| NameError (name : string)
| AssertionError (msg : string)
| ValueError (msg : string)
| ZeroDivisionError (msg : string)
| AttributeError (msg : string)
| IndexError (msg : string)
| IOError (msg : string)
| GymError (msg : string).   (* gym.error.Error *)

Inductive outcome (A : Type) : Type :=
| Ret (a : A)
| Raise (e : exn).
Arguments Ret {A} a.
Arguments Raise {A} e.

Definition returns {A : Type} (o : outcome A) : bool :=
  match o with Ret _ => true | Raise _ => false end.

(** A method body: reads and writes the object's attributes [S]; an
    exception leaves the attributes as they were when it was raised. *)
Definition M (S A : Type) : Type := S -> outcome A * S.

Definition ret {S A : Type} (a : A) : M S A := fun s => (Ret a, s).
Definition raise {S A : Type} (e : exn) : M S A := fun s => (Raise e, s).
Definition bind {S A B : Type} (c : M S A) (k : A -> M S B) : M S B :=
  fun s => match c s with
           | (Ret a, s') => k a s'
           | (Raise e, s') => (Raise e, s')
           end.
Definition get {S : Type} : M S S := fun s => (Ret s, s).
Definition modify {S : Type} (f : S -> S) : M S unit := fun s => (Ret tt, f s).
Definition lift {S A : Type} (o : outcome A) : M S A := fun s => (o, s).
Definition py_assert {S : Type} (b : bool) (msg : string) : M S unit :=
  if b then ret tt else raise (AssertionError msg).

Notation "'let*' x ':=' c 'in' k" := (bind c (fun x => k))
  (at level 10, x pattern, c at level 100, k at level 200).
Notation "c ';;' k" := (bind c (fun _ => k))
  (at level 100, k at level 200, right associativity).

(** ** Numbers *)

(** Python [int] to [float], as [int * float] and [float / int] convert
    their integer operand: the binary64 number nearest to the integer, ties
    to even.  An integer beyond the binary64 range, which Python refuses to
    convert, comes out as infinity; frame skips, horizons and list lengths
    are far below it. *)
Definition float_of_Z (z : Z) : float :=
  SF2Prim (binary_normalize prec emax z 0 false).
Definition float_of_nat (n : nat) : float := float_of_Z (Z.of_nat n).

(** A float64 cast to float32: the binary32 number nearest to it, ties to
    even, held as the binary64 number it denotes.  A number beyond the
    binary32 range becomes infinite; NaN, the infinities and the zeros are
    kept. *)
Definition as_float32 (x : float) : float :=
  match Prim2SF x with
  | S754_finite s m e => SF2Prim (binary_round 24 128 s m e)
  | _ => x
  end.

(** ** numpy *)

Module np.

(** An array element: numpy's [bool_] or [float64]. *)
Inductive scalar : Type :=
| SBool (b : bool)
| SFloat (f : float).

Definition to_float (s : scalar) : float :=
  match s with
  | SBool true => 1%float
  | SBool false => 0%float
  | SFloat f => f
  end.

(** Python truth value of an element: non-zero (NaN is true, -0.0 false). *)
Definition truth (s : scalar) : bool :=
  match s with
  | SBool b => b
  | SFloat f => negb (PrimFloat.eqb f 0%float)
  end.

(** An n-dimensional array: its shape and its elements in row-major
    order ([ravel]).  A 0-d array has shape [[]] and one element. *)
Record ndarray : Type := NdArray { shape : list nat; elems : list scalar }.

Definition size (a : ndarray) : nat := length (elems a).
Definition ravel (a : ndarray) : list float := map to_float (elems a).
Definition array0 (s : scalar) : ndarray := NdArray [] [s].
Definition array1 (l : list scalar) : ndarray := NdArray [length l] l.

(** [np.squeeze]: drop the axes of length one. *)
Definition squeeze (a : ndarray) : ndarray :=
  NdArray (filter (fun n => n <> 1) (shape a)) (elems a).

(** [a[None, None, ...]]: two leading axes of length one. *)
Definition expand2 (a : ndarray) : ndarray :=
  NdArray (1 :: 1 :: shape a) (elems a).

(** [np.maximum], [np.minimum] on float64 as the [clip] loop uses them:
    the first argument wins when it is NaN. *)
Definition maximum (a b : float) : float :=
  if PrimFloat.is_nan a || PrimFloat.ltb b a then a else b.
Definition minimum (a b : float) : float :=
  if PrimFloat.is_nan a || PrimFloat.ltb a b then a else b.

(** [np.clip(a, a_min, a_max)], elementwise [minimum(maximum(a, a_min), a_max)]. *)
Definition clip (a : list float) (a_min a_max : float) : list float :=
  map (fun x => minimum (maximum x a_min) a_max) a.

Definition zeros (n : nat) : list float := repeat 0%float n.
Definition ones (n : nat) : list float := repeat 1%float n.
Definition scale (c : float) (v : list float) : list float :=
  map (PrimFloat.mul c) v.

(** [a.astype(np.float32)] *)
Definition astype_float32 (a : list float) : list float := map as_float32 a.

(** [np.sum] of a boolean array: the number of true entries. *)
Definition sum_bool (l : list bool) : Z :=
  fold_left (fun acc (b : bool) => if b then (acc + 1)%Z else acc) l 0%Z.

(** [np.sum] of a contiguous float64 vector.  The reduction starts from
    0.0 and adds what numpy's pairwise summation returns for the whole
    vector: fewer than eight numbers are added from left to right; up to
    128 numbers go through eight running sums, one per position modulo
    eight, which are combined as a balanced tree before the numbers left
    over from the last incomplete block of eight are added; a longer
    vector is cut at half its length, rounded down to a multiple of
    eight, and the sums of the two parts are added.  (A numpy whose short
    loop starts from -0.0 returns the same [np.sum], the reduction adding
    the result to 0.0.) *)
Definition sum_loop (res : float) (l : list float) : float :=
  fold_left PrimFloat.add l res.

(** [for (i = 8; i < n - (n % 8); i += 8) r[j] += a[i + j]]: [l] is what
    is left of the vector from index [i] on. *)
Fixpoint unrolled (blocks : nat) (r l : list float) : list float * list float :=
  match blocks with
  | O => (r, l)
  | S blocks' =>
      if (8 <=? length l)%nat
      then unrolled blocks' (zip_with PrimFloat.add r (take 8 l)) (drop 8 l)
      else (r, l)
  end.

(** [r[j] = a[j]], the unrolled loop, the tree, then the rest. *)
Definition sum_block (l : list float) : float :=
  let '(r, rest) := unrolled (length l) (take 8 l) (drop 8 l) in
  match r with
  | [r0; r1; r2; r3; r4; r5; r6; r7] =>
      sum_loop
        (PrimFloat.add
           (PrimFloat.add (PrimFloat.add r0 r1) (PrimFloat.add r2 r3))
           (PrimFloat.add (PrimFloat.add r4 r5) (PrimFloat.add r6 r7)))
        rest
  | _ => sum_loop 0%float l
  end.

(** [depth] bounds the number of halvings; the length of the vector is
    always enough ([pairwise_sum_depth]). *)
Fixpoint pairwise_sum (depth : nat) (l : list float) : float :=
  let n := length l in
  if (n <? 8)%nat then sum_loop 0%float l
  else if (n <=? 128)%nat then sum_block l
  else
    match depth with
    | O => sum_loop 0%float l
    | S depth' =>
        let n2 := (n / 2 - (n / 2) mod 8)%nat in
        PrimFloat.add (pairwise_sum depth' (take n2 l)) (pairwise_sum depth' (drop n2 l))
    end.

Definition sum (l : list float) : float :=
  PrimFloat.add 0%float (pairwise_sum (length l) l).

(** [np.mean]: the sum divided by the number of elements. *)
Definition mean (l : list float) : float :=
  PrimFloat.div (sum l) (float_of_nat (length l)).

End np.

(** ** Python values found in dictionaries and in [env_info] *)

Abbreviation dict := (gmap string np.ndarray).

Inductive pyval : Type :=
| PScalar (s : np.scalar)
| PArray (a : np.ndarray)
| PDict (d : dict).

(** [d[k]] *)
Definition getitem (d : dict) (k : string) : outcome np.ndarray :=
  match d !! k with
  | Some v => Ret v
  | None => Raise (KeyError k)
  end.

(** [a[()]]: the element of a 0-d array, the array itself otherwise. *)
Definition item (a : np.ndarray) : pyval :=
  match np.shape a, np.elems a with
  | [], [s] => PScalar s
  | _, _ => PArray a
  end.

(** [bool(v)].  An array of one element has the truth of the element, an
    empty one is false and a larger one has no truth value. *)
Definition py_bool (v : pyval) : outcome bool :=
  match v with
  | PScalar s => Ret (np.truth s)
  | PArray a =>
      match np.elems a with
      | [] => Ret false
      | [s] => Ret (np.truth s)
      | _ => Raise (ValueError "The truth value of an array with more than one element is ambiguous. Use a.any() or a.all()")
      end
  | PDict d => Ret (negb (bool_decide (d = ∅)))
  end.

(** ** mujoco_py: the simulator handle *)

(** [MjSim]: the model constants the adapter reads ([sim.model]), the
    state [sim.data] integrates, and the quantities [sim.forward()]
    derives from it. *)
Record MjSim : Type := mkMjSim {
  model_nq : nat;
  model_nv : nat;
  model_nu : nat;
  model_opt_timestep : float;
  model_actuator_ctrlrange : list (float * float);
  model_site_pos : list float;
  model_body_pos : list float;
  data_time : float;
  data_qpos : list float;
  data_qvel : list float;
  data_act : list float;
  data_mocap_pos : list float;
  data_mocap_quat : list float;
  udd_state : list (string * float);
  data_derived : list float
}.

(** [mujoco_py.MjSimState] *)
Record MjSimState : Type := mkMjSimState {
  st_time : float;
  st_qpos : list float;
  st_qvel : list float;
  st_act : list float;
  st_udd_state : list (string * float)
}.

Definition sim_get_state (s : MjSim) : MjSimState :=
  mkMjSimState (data_time s) (data_qpos s) (data_qvel s) (data_act s) (udd_state s).

Definition sim_set_state (s : MjSim) (v : MjSimState) : MjSim :=
  mkMjSim (model_nq s) (model_nv s) (model_nu s) (model_opt_timestep s)
    (model_actuator_ctrlrange s) (model_site_pos s) (model_body_pos s)
    (st_time v) (st_qpos v) (st_qvel v) (st_act v)
    (data_mocap_pos s) (data_mocap_quat s) (st_udd_state v) (data_derived s).

Definition sim_with_derived (s : MjSim) (d : list float) : MjSim :=
  mkMjSim (model_nq s) (model_nv s) (model_nu s) (model_opt_timestep s)
    (model_actuator_ctrlrange s) (model_site_pos s) (model_body_pos s)
    (data_time s) (data_qpos s) (data_qvel s) (data_act s)
    (data_mocap_pos s) (data_mocap_quat s) (udd_state s) d.

(** [sim.data.qpos[:] = qpos; sim.data.qvel[:] = qvel] *)
Definition sim_with_pose (s : MjSim) (qpos qvel : list float) : MjSim :=
  mkMjSim (model_nq s) (model_nv s) (model_nu s) (model_opt_timestep s)
    (model_actuator_ctrlrange s) (model_site_pos s) (model_body_pos s)
    (data_time s) qpos qvel (data_act s)
    (data_mocap_pos s) (data_mocap_quat s) (udd_state s) (data_derived s).

(** ** gym spaces *)

Record Box : Type := mkBox { low : list float; high : list float }.

(** [spaces.Box(low, high, dtype=np.float32)]: the space keeps the two
    bounds cast to its dtype. *)
Definition spaces_Box (low high : list float) : Box :=
  mkBox (np.astype_float32 low) (np.astype_float32 high).

(** ** The collaborators the adapter calls but does not define *)

(** The physics engine, the [Robot] proxy ([mj_envs/robot/robot.py]), the
    per-entry reshaping of [ObsVecDict] ([mj_envs/utils/obj_vec_dict.py])
    and gym's seeding are opaque: the adapter only sequences calls into
    them.  [RS] is the robot's private state (configuration, random
    generator, sensor buffers); the simulator it drives is the adapter's
    [sim], passed explicitly. *)
Record World (RS : Type) : Type := mkWorld {
  (* the file system: os.path.dirname(__file__), path.exists, and
     MjSim(load_model_from_path(fullpath)) *)
  module_dir : string;
  path_exists : string -> bool;
  load_model_from_path : string -> MjSim;
  (* mujoco: the quantities mj_forward derives from the state *)
  forward_kinematics : MjSim -> list float;
  (* gym.utils.seeding.np_random(seed), once gym has accepted the seed:
     a generator and the seed used *)
  seeding_np_random : option Z -> Z * Z;
  (* Robot(mj_sim, random_generator, ...) *)
  robot_new : MjSim -> Z -> RS;
  (* Robot.step(ctrl_desired, ctrl_normalized, step_duration, realTimeSim):
     advances the simulation and returns the control applied *)
  robot_step : RS -> MjSim -> list float -> bool -> float -> bool ->
               RS * MjSim * list float;
  (* Robot.get_sensors() *)
  robot_get_sensors : RS -> MjSim -> RS * dict;
  (* Robot.sensor2sim(sen, sim) *)
  robot_sensor2sim : RS -> dict -> MjSim -> MjSim;
  (* ObsVecDict.expand_dims / squeeze_dims, per dictionary entry *)
  expand_entry : np.ndarray -> np.ndarray;
  squeeze_entry : np.ndarray -> np.ndarray;
  (* ObsVecDict.obsvec2obsdict, given the configured keys *)
  obsvec2obsdict : list string -> np.ndarray -> outcome dict
}.
Arguments module_dir {RS} _.
Arguments path_exists {RS} _ _.
Arguments load_model_from_path {RS} _ _.
Arguments forward_kinematics {RS} _ _.
Arguments seeding_np_random {RS} _ _.
Arguments robot_new {RS} _ _ _.
Arguments robot_step {RS} _ _ _ _ _ _ _.
Arguments robot_get_sensors {RS} _ _ _.
Arguments robot_sensor2sim {RS} _ _ _ _.
Arguments expand_entry {RS} _ _.
Arguments squeeze_entry {RS} _ _.
Arguments obsvec2obsdict {RS} _ _ _.

(** The two methods a subclass overrides. *)
Record Hooks : Type := mkHooks {
  get_obs_dict : MjSim -> outcome dict;
  get_reward_dict : dict -> outcome dict
}.

(** [MujocoEnv] itself overrides nothing: both bodies are
    [raise NotImplementedError]. *)
Definition MujocoEnv_hooks : Hooks :=
  mkHooks (fun _ => Raise NotImplementedError) (fun _ => Raise NotImplementedError).

(** ** The adapter's attributes *)

(** [self] of a [MujocoEnv].  The attributes bound late in [__init__]
    ([last_ctrl], [obs_dim], [observation_space], [init_qpos], [init_qvel])
    hold placeholders until they are assigned; no method reads them before. *)
Record Env (RS : Type) : Type := mkEnv {
  sim : MjSim;
  sim_obsd : MjSim;
  robot : RS;
  np_random : Z;
  mujoco_render_frames : bool;
  frame_skip : Z;
  act_normalized : bool;
  action_space : Box;
  rwd_dict : dict;
  rwd_mode : string;
  rwd_keys : option (list string);
  obs_dict : dict;
  obs_keys : list string;
  last_ctrl : list float;
  obs_dim : nat;
  observation_space : Box;
  init_qpos : list float;
  init_qvel : list float;
  spec_max_episode_steps : option Z
}.
Arguments mkEnv {RS}.
Arguments sim {RS} _.
Arguments sim_obsd {RS} _.
Arguments robot {RS} _.
Arguments np_random {RS} _.
Arguments mujoco_render_frames {RS} _.
Arguments frame_skip {RS} _.
Arguments act_normalized {RS} _.
Arguments action_space {RS} _.
Arguments rwd_dict {RS} _.
Arguments rwd_mode {RS} _.
Arguments rwd_keys {RS} _.
Arguments obs_dict {RS} _.
Arguments obs_keys {RS} _.
Arguments last_ctrl {RS} _.
Arguments obs_dim {RS} _.
Arguments observation_space {RS} _.
Arguments init_qpos {RS} _.
Arguments init_qvel {RS} _.
Arguments spec_max_episode_steps {RS} _.

Section Setters.
Context {RS : Type}.
Implicit Type e : Env RS.

Definition set_sim (v : MjSim) e : Env RS :=
  mkEnv v (sim_obsd e) (robot e) (np_random e) (mujoco_render_frames e)
    (frame_skip e) (act_normalized e) (action_space e) (rwd_dict e) (rwd_mode e)
    (rwd_keys e) (obs_dict e) (obs_keys e) (last_ctrl e) (obs_dim e)
    (observation_space e) (init_qpos e) (init_qvel e) (spec_max_episode_steps e).

Definition set_sim_obsd (v : MjSim) e : Env RS :=
  mkEnv (sim e) v (robot e) (np_random e) (mujoco_render_frames e)
    (frame_skip e) (act_normalized e) (action_space e) (rwd_dict e) (rwd_mode e)
    (rwd_keys e) (obs_dict e) (obs_keys e) (last_ctrl e) (obs_dim e)
    (observation_space e) (init_qpos e) (init_qvel e) (spec_max_episode_steps e).

Definition set_robot (v : RS) e : Env RS :=
  mkEnv (sim e) (sim_obsd e) v (np_random e) (mujoco_render_frames e)
    (frame_skip e) (act_normalized e) (action_space e) (rwd_dict e) (rwd_mode e)
    (rwd_keys e) (obs_dict e) (obs_keys e) (last_ctrl e) (obs_dim e)
    (observation_space e) (init_qpos e) (init_qvel e) (spec_max_episode_steps e).

Definition set_np_random (v : Z) e : Env RS :=
  mkEnv (sim e) (sim_obsd e) (robot e) v (mujoco_render_frames e)
    (frame_skip e) (act_normalized e) (action_space e) (rwd_dict e) (rwd_mode e)
    (rwd_keys e) (obs_dict e) (obs_keys e) (last_ctrl e) (obs_dim e)
    (observation_space e) (init_qpos e) (init_qvel e) (spec_max_episode_steps e).

Definition set_rwd_dict (v : dict) e : Env RS :=
  mkEnv (sim e) (sim_obsd e) (robot e) (np_random e) (mujoco_render_frames e)
    (frame_skip e) (act_normalized e) (action_space e) v (rwd_mode e)
    (rwd_keys e) (obs_dict e) (obs_keys e) (last_ctrl e) (obs_dim e)
    (observation_space e) (init_qpos e) (init_qvel e) (spec_max_episode_steps e).

Definition set_obs_dict (v : dict) e : Env RS :=
  mkEnv (sim e) (sim_obsd e) (robot e) (np_random e) (mujoco_render_frames e)
    (frame_skip e) (act_normalized e) (action_space e) (rwd_dict e) (rwd_mode e)
    (rwd_keys e) v (obs_keys e) (last_ctrl e) (obs_dim e)
    (observation_space e) (init_qpos e) (init_qvel e) (spec_max_episode_steps e).

Definition set_last_ctrl (v : list float) e : Env RS :=
  mkEnv (sim e) (sim_obsd e) (robot e) (np_random e) (mujoco_render_frames e)
    (frame_skip e) (act_normalized e) (action_space e) (rwd_dict e) (rwd_mode e)
    (rwd_keys e) (obs_dict e) (obs_keys e) v (obs_dim e)
    (observation_space e) (init_qpos e) (init_qvel e) (spec_max_episode_steps e).

(** The last assignments of [__init__]. *)
Definition set_finalize (dim : nat) (space : Box) (qp qv : list float) e : Env RS :=
  mkEnv (sim e) (sim_obsd e) (robot e) (np_random e) (mujoco_render_frames e)
    (frame_skip e) (act_normalized e) (action_space e) (rwd_dict e) (rwd_mode e)
    (rwd_keys e) (obs_dict e) (obs_keys e) (last_ctrl e) dim
    space qp qv (spec_max_episode_steps e).

End Setters.

(** ** ObsVecDict *)

(** Modelled from the spec: [ObsVecDict.obsdict2obsvec] is defined in
    [mj_envs/utils/obj_vec_dict.py], which is not among the sources.  The
    observation dictionary "must always include t" and the "order of
    flattening is fixed by a configured list of keys": the entries named by
    the keys are flattened and concatenated in that order, and the time
    entry is returned beside the vector. *)
Fixpoint concat_entries (d : dict) (keys : list string) : outcome (list float) :=
  match keys with
  | [] => Ret []
  | k :: ks =>
      match getitem d k with
      | Raise x => Raise x
      | Ret a =>
          match concat_entries d ks with
          | Raise x => Raise x
          | Ret v => Ret (np.ravel a ++ v)%list
          end
      end
  end.

Definition obsdict2obsvec (d : dict) (keys : list string)
  : outcome (np.ndarray * list float) :=
  match d !! "t" with
  | None => Raise (AssertionError "obs_dict must include the time key t")
  | Some t =>
      match concat_entries d keys with
      | Raise x => Raise x
      | Ret v => Ret (t, v)
      end
  end.

(** ** What [step] hands back *)

(** The dictionary built by [get_env_infos], one field per key. *)
Record EnvInfo : Type := mkEnvInfo {
  info_time : pyval;
  info_rwd_dense : pyval;
  info_rwd_sparse : pyval;
  info_solved : pyval;
  info_done : pyval;
  info_obs_dict : dict;
  info_rwd_dict : dict
}.

(** [env_info[k]] *)
Definition env_info_getitem (i : EnvInfo) (k : string) : outcome pyval :=
  if String.eqb k "time" then Ret (info_time i)
  else if String.eqb k "rwd_dense" then Ret (info_rwd_dense i)
  else if String.eqb k "rwd_sparse" then Ret (info_rwd_sparse i)
  else if String.eqb k "solved" then Ret (info_solved i)
  else if String.eqb k "done" then Ret (info_done i)
  else if String.eqb k "obs_dict" then Ret (PDict (info_obs_dict i))
  else if String.eqb k "rwd_dict" then Ret (PDict (info_rwd_dict i))
  else Raise (KeyError k).

(** [get_env_state]'s dictionary. *)
Record EnvState : Type := mkEnvState {
  es_qpos : list float;
  es_qvel : list float;
  es_mocap_pos : list float;
  es_mocap_quat : list float;
  es_site_pos : list float;
  es_body_pos : list float
}.

(** A trajectory as [evaluate_success] reads it: the per-step entries of
    [path['env_infos']]. *)
Record Path : Type := mkPath {
  env_infos_solved : list bool;
  env_infos_rwd_sparse : list float;
  env_infos_rwd_dense : list float
}.

(** The logger collaborator: the key/value pairs it was handed, in order. *)
Abbreviation Logger := (list (string * float)).
Definition log_kv (l : Logger) (k : string) (v : float) : Logger := (l ++ [(k, v)])%list.

(** Name lookup in a function body: a name that is neither a local nor a
    global of the module (whose globals are its imports, [get_sim] and
    [MujocoEnv]) raises [NameError]. *)
Fixpoint load_name (locals : list (string * dict)) (name : string) : outcome dict :=
  match locals with
  | [] => Raise (NameError name)
  | (n, v) :: rest => if String.eqb n name then Ret v else load_name rest name
  end.

(** [a[..., :-1] = a[..., 1:]]: every row along the last axis is shifted
    left by one, its last element kept. *)
Definition shift_row {A : Type} (row : list A) : list A :=
  match row with
  | [] => []
  | x :: tl => (tl ++ [List.last tl x])%list
  end.

Fixpoint rows {A : Type} (fuel h : nat) (l : list A) : list (list A) :=
  match fuel, l with
  | O, _ => []
  | _, [] => []
  | S fuel', _ => take h l :: rows fuel' h (drop h l)
  end.

Definition time_align (a : np.ndarray) : outcome np.ndarray :=
  match List.last (map Some (np.shape a)) None with
  | None => Raise (IndexError "too many indices for array")
  | Some h =>
      Ret (np.NdArray (np.shape a)
             (concat (map shift_row (rows (length (np.elems a)) h (np.elems a)))))
  end.

(** [a if a.shape[0] > 1 else a.ravel()] *)
Definition keep_or_ravel (a : np.ndarray) : outcome np.ndarray :=
  match np.shape a with
  | [] => Raise (IndexError "tuple index out of range")
  | n :: _ => Ret (if (1 <? n)%nat then a else np.NdArray [np.size a] (np.elems a))
  end.

(** ** The methods of [MujocoEnv] *)

Section Adapter.
Context {RS : Type} (W : World RS) (H : Hooks).

Abbreviation Self := (Env RS).

(** [get_sim(model_path)] with [model_str] left at its default. *)
Definition get_sim (model_path : option string) : outcome MjSim :=
  match model_path with
  | None => Raise (AttributeError "'NoneType' object has no attribute 'startswith'")
  | Some p =>
      let fullpath :=
        if String.prefix "/" p then p else module_dir W ++ "/assets/" ++ p in
      if path_exists W fullpath then Ret (load_model_from_path W fullpath)
      else Raise (IOError ("File " ++ fullpath ++ " does not exist"))
  end.

(** [sim.forward()] derives quantities from the state and leaves the
    state itself alone. *)
Definition sim_forward (s : MjSim) : MjSim :=
  sim_with_derived s (forward_kinematics W s).

(** Modelled from the spec: [Robot.reset] is defined in
    [mj_envs/robot/robot.py], which is not among the sources.  The robot
    collaborator "supports pose/velocity reset": the simulation it drives
    takes the pose and velocity it is given. *)
Definition robot_reset (r : RS) (s : MjSim) (qpos qvel : list float) : RS * MjSim :=
  (r, sim_with_pose s qpos qvel).

(** [ObsVecDict.expand_dims(d)] and [squeeze_dims(d)] rewrite every entry
    of [d] in place. *)
Definition expand_dims (d : dict) : dict := expand_entry W <$> d.
Definition squeeze_dims (d : dict) : dict := squeeze_entry W <$> d.

(** [self.dt] *)
Definition dt (e : Self) : float :=
  PrimFloat.mul (model_opt_timestep (sim e)) (float_of_Z (frame_skip e)).

(** [self.horizon] *)
Definition horizon (e : Self) : outcome Z :=
  match spec_max_episode_steps e with
  | Some h => Ret h
  | None => Raise (AttributeError "'NoneType' object has no attribute 'max_episode_steps'")
  end.

(** [utils.seeding.np_random(seed)]: gym refuses a seed that is neither
    [None] nor a non-negative integer before it builds a generator. *)
Definition utils_seeding_np_random (seed : option Z) : outcome (Z * Z) :=
  match seed with
  | Some s =>
      if (s <? 0)%Z
      then Raise (GymError ("Seed must be a non-negative integer or omitted, not "
                            ++ pretty s))
      else Ret (seeding_np_random W seed)
  | None => Ret (seeding_np_random W seed)
  end.

Definition seed (s : option Z) : M Self (list Z) :=
  let* (g, s') := lift (utils_seeding_np_random s) in
  modify (set_np_random g) ;;
  ret [s'].

Definition get_obs : M Self (list float) :=
  (* get sensor data from robot *)
  let* e := get in
  let '(r, sen) := robot_get_sensors W (robot e) (sim e) in
  modify (set_robot r) ;;
  (* reconstruct (partially) observed sim using (noisy) sensor data *)
  modify (fun e => set_sim_obsd (robot_sensor2sim W r sen (sim_obsd e)) e) ;;
  (* get obs_dict using the observed information *)
  let* e := get in
  let* d := lift (get_obs_dict H (sim_obsd e)) in
  modify (set_obs_dict d) ;;
  (* recover the observation vector from the obs_dict *)
  let* e := get in
  let* (t, obs) := lift (obsdict2obsvec (obs_dict e) (obs_keys e)) in
  ret obs.

Definition get_env_infos : M Self EnvInfo :=
  let* e := get in
  let* t := lift (getitem (obs_dict e) "t") in
  let* dense := lift (getitem (rwd_dict e) "dense") in
  let* sparse := lift (getitem (rwd_dict e) "sparse") in
  let* solved := lift (getitem (rwd_dict e) "solved") in
  let* done := lift (getitem (rwd_dict e) "done") in
  ret (mkEnvInfo (item t) (item dense) (item sparse) (item solved) (item done)
         (obs_dict e) (rwd_dict e)).

Definition step (a : list float) : M Self (list float * pyval * bool * EnvInfo) :=
  let a := np.clip a (-1)%float 1%float in
  let* e := get in
  let '(r, s, ctrl) :=
    robot_step W (robot e) (sim e) a (act_normalized e) (dt e)
      (mujoco_render_frames e) in
  modify (fun e => set_last_ctrl ctrl (set_sim s (set_robot r e))) ;;
  (* observation *)
  let* obs := get_obs in
  (* rewards *)
  modify (fun e => set_obs_dict (expand_dims (obs_dict e)) e) ;;
  let* e := get in
  let* rwd := lift (get_reward_dict H (obs_dict e)) in
  modify (set_rwd_dict rwd) ;;
  modify (fun e => set_rwd_dict (squeeze_dims (rwd_dict e)) e) ;;
  modify (fun e => set_obs_dict (squeeze_dims (obs_dict e)) e) ;;
  (* finalize step *)
  let* env_info := get_env_infos in
  let* e := get in
  let* reward := lift (env_info_getitem env_info ("rwd_" ++ rwd_mode e)) in
  let* done_v := lift (env_info_getitem env_info "done") in
  let* done := lift (py_bool done_v) in
  ret (obs, reward, done, env_info).

Definition compute_path_rewards (e : Self) (paths : dict) : outcome dict :=
  match getitem paths "observations" with
  | Raise x => Raise x
  | Ret observations =>
  match obsvec2obsdict W (obs_keys e) observations with
  | Raise x => Raise x
  | Ret obs_dict =>
  match get_reward_dict H obs_dict with
  | Raise x => Raise x
  | Ret rwd_dict =>
  (* the body goes on with [reward_dict], a name it never binds *)
  match load_name [("obs_dict", obs_dict); ("rwd_dict", rwd_dict)] "reward_dict" with
  | Raise x => Raise x
  | Ret reward_dict =>
  match getitem reward_dict (rwd_mode e) with
  | Raise x => Raise x
  | Ret rewards =>
  match getitem reward_dict "done" with
  | Raise x => Raise x
  | Ret done =>
  (* time align rewards. last step is redundant *)
  match time_align done with
  | Raise x => Raise x
  | Ret done =>
  match time_align rewards with
  | Raise x => Raise x
  | Ret rewards =>
  match keep_or_ravel done with
  | Raise x => Raise x
  | Ret done' =>
  match keep_or_ravel rewards with
  | Raise x => Raise x
  | Ret rewards' => Ret (<["rewards" := rewards']> (<["done" := done']> paths))
  end end end end end end end end end end.

(** The loop of [evaluate_success]: one more success for every path
    whose [solved] entries sum to more than [successful_steps]. *)
Definition count_success (paths : list Path) (successful_steps : Z) : Z :=
  fold_left
    (fun num_success path =>
       if (successful_steps <? np.sum_bool (env_infos_solved path))%Z
       then (num_success + 1)%Z else num_success)
    paths 0%Z.

Definition evaluate_success (e : Self) (paths : list Path) (logger : option Logger)
    (successful_steps : Z) : outcome (float * option Logger) :=
  let num_success := count_success paths successful_steps in
  let num_paths := length paths in
  if (num_paths =? 0)%nat then Raise (ZeroDivisionError "float division by zero") else
  let success_percentage :=
    PrimFloat.div (PrimFloat.mul (float_of_Z num_success) 100%float)
      (float_of_nat num_paths) in
  (* log stats *)
  match logger with
  | None => Ret (success_percentage, None)
  | Some l =>
      let rwd_sparse := np.mean (map (fun p => np.mean (env_infos_rwd_sparse p)) paths) in
      match horizon e with
      | Raise x => Raise x
      | Ret h =>
          let rwd_dense :=
            np.mean (map (fun p => PrimFloat.div (np.sum (env_infos_rwd_dense p))
                                     (float_of_Z h)) paths) in
          let l := log_kv l "rwd_sparse" rwd_sparse in
          let l := log_kv l "rwd_dense" rwd_dense in
          let l := log_kv l "success_percentage" success_percentage in
          Ret (success_percentage, Some l)
      end
  end.

Definition reset (reset_qpos reset_qvel : option (list float)) : M Self (list float) :=
  let* e := get in
  let qpos := match reset_qpos with None => init_qpos e | Some q => q end in
  let qvel := match reset_qvel with None => init_qvel e | Some q => q end in
  let '(r, s) := robot_reset (robot e) (sim e) qpos qvel in
  modify (fun e => set_sim s (set_robot r e)) ;;
  get_obs.

Definition set_state (qpos qvel : list float) : M Self unit :=
  let* e := get in
  py_assert ((length qpos =? model_nq (sim e))%nat && (length qvel =? model_nv (sim e))%nat) "" ;;
  let old_state := sim_get_state (sim e) in
  let new_state :=
    mkMjSimState (st_time old_state) qpos qvel (st_act old_state) (st_udd_state old_state) in
  modify (fun e => set_sim (sim_set_state (sim e) new_state) e) ;;
  modify (fun e => set_sim (sim_forward (sim e)) e).

Definition get_env_state (e : Self) : EnvState :=
  mkEnvState (data_qpos (sim e)) (data_qvel (sim e))
    (data_mocap_pos (sim e)) (data_mocap_quat (sim e))
    (model_site_pos (sim e)) (model_body_pos (sim e)).

(** The constructor's arguments. *)
Record Config : Type := mkConfig {
  cfg_sim : option MjSim;
  cfg_sim_obsd : option MjSim;
  cfg_model_path : option string;
  cfg_frame_skip : Z;
  cfg_obs_keys : list string;
  cfg_rwd_keys : option (list string);
  cfg_rwd_mode : string;
  cfg_act_normalized : bool;
  cfg_seed : option Z;
  cfg_obs_range : float * float
}.

(** [__init__] up to the first [step]: the simulators are resolved, the
    generator seeded (which fails on a negative seed), the robot and the
    action space built, and the two dictionaries start empty. *)
Definition init_attributes (c : Config) : outcome Self :=
  let sims :=
    match cfg_sim c with
    | None =>
        match get_sim (cfg_model_path c) with
        | Raise x => Raise x
        | Ret s =>
            match get_sim (cfg_model_path c) with
            | Raise x => Raise x
            | Ret so => Ret (s, so)
            end
        end
    | Some s =>
        match cfg_sim_obsd c with
        | None => Raise (AssertionError "sim and sim_obsd needs to be specified together, else model_path should be provided")
        | Some so => Ret (s, so)
        end
    end in
  match sims with
  | Raise x => Raise x
  | Ret (s, so) =>
      (* seed the random number generator *)
      match utils_seeding_np_random (cfg_seed c) with
      | Raise x => Raise x
      | Ret (g, _) =>
          let r := robot_new W s g in
          let act_low :=
            if cfg_act_normalized c then map PrimFloat.opp (np.ones (model_nu s))
            else map fst (model_actuator_ctrlrange s) in
          let act_high :=
            if cfg_act_normalized c then np.ones (model_nu s)
            else map snd (model_actuator_ctrlrange s) in
          Ret (mkEnv s so r g false (cfg_frame_skip c) (cfg_act_normalized c)
                 (spaces_Box act_low act_high) ∅ (cfg_rwd_mode c) (cfg_rwd_keys c)
                 ∅ (cfg_obs_keys c) [] 0 (mkBox [] []) [] [] None)
      end
  end.

(** [__init__]: one step with the zero action, which must not report
    done, fixes [obs_dim]; the pose and velocity found after it become
    [init_qpos] and [init_qvel]. *)
Definition __init__ (c : Config) : outcome Self :=
  match init_attributes c with
  | Raise x => Raise x
  | Ret e0 =>
      match step (np.zeros (model_nu (sim e0))) e0 with
      | (Raise x, _) => Raise x
      | (Ret (observation, _, done, _), e1) =>
          if done
          then Raise (AssertionError "Checking initialization. Simulation starts in a done state.")
          else
            let dim := length observation in
            Ret (set_finalize dim
                   (spaces_Box (np.scale (fst (cfg_obs_range c)) (np.ones dim))
                               (np.scale (snd (cfg_obs_range c)) (np.ones dim)))
                   (data_qpos (sim e1)) (data_qvel (sim e1)) e1)
      end
  end.

End Adapter.

(** ** A concrete subclass: a one-joint slider

    A small instance of the collaborators and of the two overridden
    methods, on which the adapter can be run.  The robot counts its calls,
    drives the joint velocity with the control and integrates the position;
    the episode is solved, and done, once the joint has passed 0.5. *)

Module Slider.

Definition fresh_sim : MjSim :=
  mkMjSim 1 1 1 0.5%float [((-1)%float, 1%float)] [] []
    0%float [0%float] [0%float] [] [] [] [] [].

Definition advance (s : MjSim) (ctrl : list float) (step_duration : float) : MjSim :=
  let v := List.hd 0%float ctrl in
  let q := List.hd 0%float (data_qpos s) in
  mkMjSim (model_nq s) (model_nv s) (model_nu s) (model_opt_timestep s)
    (model_actuator_ctrlrange s) (model_site_pos s) (model_body_pos s)
    (PrimFloat.add (data_time s) step_duration)
    [PrimFloat.add q (PrimFloat.mul step_duration v)] [v] (data_act s)
    (data_mocap_pos s) (data_mocap_quat s) (udd_state s) (data_derived s).

Definition sensors (s : MjSim) : dict :=
  {[ "time" := np.array0 (np.SFloat (data_time s));
     "qp" := np.array1 (map np.SFloat (data_qpos s));
     "qv" := np.array1 (map np.SFloat (data_qvel s)) ]}.

Definition sensor2sim (sen : dict) (so : MjSim) : MjSim :=
  let read k := match sen !! k with Some a => np.ravel a | None => [] end in
  mkMjSim (model_nq so) (model_nv so) (model_nu so) (model_opt_timestep so)
    (model_actuator_ctrlrange so) (model_site_pos so) (model_body_pos so)
    (List.hd 0%float (read "time")) (read "qp") (read "qv") (data_act so)
    (data_mocap_pos so) (data_mocap_quat so) (udd_state so) (data_derived so).

Definition world : World nat :=
  mkWorld nat
    "/mj_envs/envs" (fun _ => true) (fun _ => fresh_sim)
    (fun s => data_qpos s)
    (fun seed => match seed with Some s => (s, s) | None => (0%Z, 0%Z) end)
    (fun _ _ => O)
    (fun r s a _ step_duration _ => (S r, advance s a step_duration, a))
    (fun r s => (r, sensors s))
    (fun _ sen so => sensor2sim sen so)
    np.expand2 np.squeeze
    (fun _ v => Ret {[ "t" := np.array0 (np.SFloat 0%float); "qp" := v ]}).

Definition obs_of (so : MjSim) : dict :=
  {[ "t" := np.array0 (np.SFloat (data_time so));
     "qp" := np.array1 [np.SFloat (List.hd 0%float (data_qpos so))];
     "qv" := np.array1 [np.SFloat (List.hd 0%float (data_qvel so))] ]}.

Definition reward_of (d : dict) : dict :=
  let q := match d !! "qp" with Some a => List.hd 0%float (np.ravel a) | None => 0%float end in
  let far := PrimFloat.ltb 0.5%float q in
  {[ "dense" := np.NdArray [1; 1] [np.SFloat (PrimFloat.opp (PrimFloat.abs q))];
     "sparse" := np.NdArray [1; 1] [np.SFloat (if far then 1%float else 0%float)];
     "solved" := np.NdArray [1; 1] [np.SBool far];
     "done" := np.NdArray [1; 1] [np.SBool far] ]}.

Definition hooks : Hooks :=
  mkHooks (fun so => Ret (obs_of so)) (fun d => Ret (reward_of d)).

Definition config : Config :=
  mkConfig None None (Some "slider.xml") 1 ["qp"; "qv"] None "dense" true (Some 0%Z)
    ((-10)%float, 10%float).

(** The slider after construction (its first, zero-action step taken). *)
Definition env0 : Env nat :=
  match __init__ world hooks config with
  | Ret e => e
  | Raise _ =>
      mkEnv fresh_sim fresh_sim O 0%Z false 1 true (mkBox [] []) ∅ "dense" None ∅
        ["qp"; "qv"] [] 0 (mkBox [] []) [] [] None
  end.

(** The subclass as it is usually written: the observation carries the
    whole position and velocity vectors of the observed simulation. *)
Definition joint_obs_of (so : MjSim) : dict :=
  {[ "t" := np.array0 (np.SFloat (data_time so));
     "qp" := np.array1 (map np.SFloat (data_qpos so));
     "qv" := np.array1 (map np.SFloat (data_qvel so)) ]}.

Definition joint_hooks : Hooks :=
  mkHooks (fun so => Ret (joint_obs_of so)) (fun d => Ret (reward_of d)).

(** A subclass whose observation grows once the clock has passed 0.75. *)
Definition growing_hooks : Hooks :=
  mkHooks
    (fun so =>
       Ret (if PrimFloat.ltb 0.75%float (data_time so)
            then <["qp" := np.array1 [np.SFloat (List.hd 0%float (data_qpos so));
                                      np.SFloat (List.hd 0%float (data_qpos so))]]> (obs_of so)
            else obs_of so))
    (fun d => Ret (reward_of d)).

(** A subclass whose reward dictionary forgets the "solved" entry. *)
Definition forgetful_hooks : Hooks :=
  mkHooks (fun so => Ret (obs_of so)) (fun d => Ret (delete "solved" (reward_of d))).

(** A simulation that starts beyond the goal. *)
Definition far_sim : MjSim :=
  mkMjSim 1 1 1 0.5%float [((-1)%float, 1%float)] [] []
    0%float [1%float] [0%float] [] [] [] [] [].

Definition far_config : Config :=
  mkConfig (Some far_sim) (Some far_sim) None 1 ["qp"; "qv"] None "dense" true (Some 0%Z)
    ((-10)%float, 10%float).

(** The slider after one and after two full-speed steps. *)
Definition env1 : Env nat := snd (step world hooks [1%float] env0).
Definition env2 : Env nat := snd (step world hooks [1%float] env1).

Definition three_paths : list Path :=
  [ mkPath [true; true; true; false] [1%float] [1%float];
    mkPath [false; true; false; false] [0%float] [0%float];
    mkPath [true; true; false; false] [0%float] [0.5%float] ].

End Slider.

(** ** The properties, in the spec's words *)

(** "Any action outside [-1,1] is clamped": a component below -1 becomes
    -1, one above 1 becomes 1, every other one (NaN included) is kept. *)
Definition clamp (x : float) : float :=
  if PrimFloat.ltb x (-1)%float then (-1)%float
  else if PrimFloat.ltb 1%float x then 1%float
  else x.

Definition in_unit_interval (x : float) : bool :=
  PrimFloat.leb (-1)%float x && PrimFloat.leb x 1%float.

(** The first phase of [step]: the attributes once the robot has taken
    the clipped action. *)
Definition robot_phase {RS : Type} (W : World RS) (a : list float) (e : Env RS) : Env RS :=
  let '(r, s, ctrl) :=
    robot_step W (robot e) (sim e) (np.clip a (-1)%float 1%float)
      (act_normalized e) (dt e) (mujoco_render_frames e) in
  set_last_ctrl ctrl (set_sim s (set_robot r e)).

(** The keys [get_env_infos] requires of the reward dictionary, in the
    order it reads them. *)
Definition required_keys : list string := ["dense"; "sparse"; "solved"; "done"].

(** The adapters a program can hold: the constructed one, and whatever
    further method calls (returning or raising) leave behind. *)
Inductive reachable {RS : Type} (W : World RS) (H : Hooks) (e0 : Env RS) : Env RS -> Prop :=
| reach_init : reachable W H e0 e0
| reach_step e a : reachable W H e0 e -> reachable W H e0 (snd (step W H a e))
| reach_reset e q v : reachable W H e0 e -> reachable W H e0 (snd (reset W H q v e))
| reach_set_state e q v : reachable W H e0 e -> reachable W H e0 (snd (set_state W q v e))
| reach_seed e s : reachable W H e0 e -> reachable W H e0 (snd (seed W s e)).

(** The simulator [get_obs], run from [e], hands to the observation
    hook: the observed simulator once the robot's sensor readings have been
    written to it. *)
Definition observed_sim {RS : Type} (W : World RS) (e : Env RS) : MjSim :=
  let '(r, sen) := robot_get_sensors W (robot e) (sim e) in
  robot_sensor2sim W r sen (sim_obsd e).

(** On the calls [calls] (the simulators it was handed), the observation
    hook gives every configured key an array of the same size. *)
Definition fixed_entry_sizes (H : Hooks) (keys : list string) (calls : list MjSim) : Prop :=
  forall s1 s2 d1 d2 k,
    In s1 calls -> In s2 calls ->
    get_obs_dict H s1 = Ret d1 -> get_obs_dict H s2 = Ret d2 -> In k keys ->
    np.size <$> (d1 !! k) = np.size <$> (d2 !! k).

(** A seed gym accepts: omitted, or a non-negative integer. *)
Definition seed_accepted (s : option Z) : Prop :=
  forall n, s = Some n -> (0 <= n)%Z.

(** "Solved true for more than [successful_steps] steps." *)
Definition solved_steps (p : Path) : nat := length (filter (fun b => b = true) (env_infos_solved p)).
Definition successful (successful_steps : Z) (p : Path) : bool :=
  (successful_steps <? Z.of_nat (solved_steps p))%Z.
Definition successes (paths : list Path) (successful_steps : Z) : nat :=
  length (List.filter (successful successful_steps) paths).

(** "100*k/N" *)
Definition percentage (k N : nat) : float :=
  PrimFloat.div (PrimFloat.mul (float_of_nat k) 100%float) (float_of_nat N).

(** ** Trajectories as [truncate_paths] handles them *)

(** The exceptions of the path utilities: those above, and [TypeError]. *)
Inductive pyexn : Type :=
| Exn (x : exn)
| TypeError (msg : string).

Inductive result (A : Type) : Type :=
| Ok (a : A)
| Err (x : pyexn).
Arguments Ok {A} a.
Arguments Err {A} x.

Definition is_ok {A : Type} (r : result A) : bool :=
  match r with Ok _ => true | Err _ => false end.

(** A path dictionary, in the order of its keys: the array entries the
    sampler stored (observations, actions, rewards, ...), the ["done"]
    entry, a one-dimensional boolean array, and the ["terminated"] entry,
    a Python bool that only [truncate_paths] writes. *)
Record TPath : Type := mkTPath {
  tp_arrays : list (string * np.ndarray);
  tp_done : option (list bool);
  tp_terminated : option bool
}.

(** [d[k]] on an ordered dictionary. *)
Fixpoint assoc {A : Type} (k : string) (l : list (string * A)) : option A :=
  match l with
  | [] => None
  | (k', v) :: rest => if String.eqb k' k then Some v else assoc k rest
  end.

(** [a.shape[0]] *)
Definition first_axis (a : np.ndarray) : outcome nat :=
  match np.shape a with
  | [] => Raise (IndexError "tuple index out of range")
  | h :: _ => Ret h
  end.

(** [a[:k, ...]]: the first [k] blocks along the first axis. *)
Definition slice_first (k : nat) (a : np.ndarray) : outcome np.ndarray :=
  match np.shape a with
  | [] => Raise (IndexError "too many indices for array")
  | h :: rest =>
      Ret (np.NdArray (Nat.min k h :: rest)
             (take (Nat.min k h * fold_right Nat.mul 1 rest) (np.elems a)))
  end.

(** [for key in path.keys(): path[key] = path[key][:k, ...]] over the
    array entries; an entry that cannot be sliced stops the loop, the
    entries before it already replaced. *)
Fixpoint slice_entries (k : nat) (l : list (string * np.ndarray))
  : result unit * list (string * np.ndarray) :=
  match l with
  | [] => (Ok tt, [])
  | (key, a) :: rest =>
      match slice_first k a with
      | Raise x => (Err (Exn x), (key, a) :: rest)
      | Ret a' =>
          let '(r, rest') := slice_entries k rest in
          (r, (key, a') :: rest')
      end
  end.

(** [sum(~done)]: the number of steps that are not done. *)
Definition count_not_done (done : list bool) : nat :=
  length (List.filter negb done).

(** The body of the loop of [truncate_paths], on one path. *)
Definition truncate_path (path : TPath) : result unit * TPath :=
  match tp_done path with
  | None => (Err (Exn (KeyError "done")), path)
  | Some done =>
      match done with
      | [] => (Err (Exn (IndexError "index -1 is out of bounds for axis 0 with size 0")), path)
      | first :: _ =>
          if negb (List.last done first) then
            (* path['done'][-1] == False *)
            (Ok tt, mkTPath (tp_arrays path) (tp_done path) (Some false))
          else if negb first then
            (* path['done'][0] == False *)
            let terminated_idx := count_not_done done + 1 in
            match slice_entries (terminated_idx + 1) (tp_arrays path) with
            | (Err x, arrays') => (Err x, mkTPath arrays' (tp_done path) (tp_terminated path))
            | (Ok _, arrays') =>
                let done' := take (terminated_idx + 1) done in
                match tp_terminated path with
                | Some b =>
                    (Err (TypeError "'bool' object is not subscriptable"),
                     mkTPath arrays' (Some done') (Some b))
                | None => (Ok tt, mkTPath arrays' (Some done') (Some true))
                end
            end
          else (Ok tt, path)
      end
  end.

(** [for path in paths: ...], the paths being changed in place. *)
Fixpoint truncate_each (paths : list TPath) : result unit * list TPath :=
  match paths with
  | [] => (Ok tt, [])
  | path :: rest =>
      match truncate_path path with
      | (Err x, path') => (Err x, path' :: rest)
      | (Ok _, path') =>
          let '(r, rest') := truncate_each rest in
          (r, path' :: rest')
      end
  end.

(** [truncate_paths(paths)]: the outcome and the paths as the call leaves
    them (on success, the list it returns). *)
Definition truncate_paths (paths : list TPath) : result unit * list TPath :=
  match paths with
  | [] => (Err (Exn (IndexError "list index out of range")), paths)
  | path0 :: _ =>
      match assoc "rewards" (tp_arrays path0) with
      | None => (Err (Exn (KeyError "rewards")), paths)
      | Some rewards =>
          match first_axis rewards with
          | Raise x => (Err (Exn x), paths)
          | Ret hor => truncate_each paths
          end
      end
  end.

(** Example trajectories of six steps: one that is done after three
    steps, one still running, one done from its first step. *)
Definition finished_path : TPath :=
  mkTPath
    [("observations", np.NdArray [6; 2] (map np.SFloat
        [0; 0; 1; 0; 2; 0; 3; 0; 4; 0; 5; 0]%float));
     ("rewards", np.NdArray [6] (map np.SFloat [0; 0; 0; 1; 1; 1]%float))]
    (Some [false; false; false; true; true; true]) None.

Definition running_path : TPath :=
  mkTPath
    [("observations", np.NdArray [6; 2] (map np.SFloat
        [0; 0; 1; 0; 2; 0; 3; 0; 4; 0; 5; 0]%float));
     ("rewards", np.NdArray [6] (map np.SFloat [0; 0; 0; 0; 0; 0]%float))]
    (Some [false; false; false; false; false; false]) None.

Definition stuck_path : TPath :=
  mkTPath
    [("observations", np.NdArray [6; 2] (map np.SFloat
        [9; 0; 9; 0; 9; 0; 9; 0; 9; 0; 9; 0]%float));
     ("rewards", np.NdArray [6] (map np.SFloat [1; 1; 1; 1; 1; 1]%float))]
    (Some [true; true; true; true; true; true]) None.

(** ** Further vocabulary for the properties *)

(** What the constructor fixes: the attributes no later method assigns. *)
Definition same_config {RS : Type} (e e' : Env RS) : Prop :=
  init_qpos e' = init_qpos e /\ init_qvel e' = init_qvel e
  /\ obs_keys e' = obs_keys e /\ obs_dim e' = obs_dim e
  /\ rwd_mode e' = rwd_mode e /\ rwd_keys e' = rwd_keys e
  /\ act_normalized e' = act_normalized e /\ frame_skip e' = frame_skip e
  /\ action_space e' = action_space e /\ observation_space e' = observation_space e
  /\ mujoco_render_frames e' = mujoco_render_frames e
  /\ spec_max_episode_steps e' = spec_max_episode_steps e.

(** The adapter with another reward mode. *)
Definition with_rwd_mode {RS : Type} (m : string) (e : Env RS) : Env RS :=
  mkEnv (sim e) (sim_obsd e) (robot e) (np_random e) (mujoco_render_frames e)
    (frame_skip e) (act_normalized e) (action_space e) (rwd_dict e) m
    (rwd_keys e) (obs_dict e) (obs_keys e) (last_ctrl e) (obs_dim e)
    (observation_space e) (init_qpos e) (init_qvel e) (spec_max_episode_steps e).

(** The adapter registered with gym: [spec.max_episode_steps] is bound. *)
Definition with_horizon {RS : Type} (h : Z) (e : Env RS) : Env RS :=
  mkEnv (sim e) (sim_obsd e) (robot e) (np_random e) (mujoco_render_frames e)
    (frame_skip e) (act_normalized e) (action_space e) (rwd_dict e) (rwd_mode e)
    (rwd_keys e) (obs_dict e) (obs_keys e) (last_ctrl e) (obs_dim e)
    (observation_space e) (init_qpos e) (init_qvel e) (Some h).

(** The path [get_sim] opens for a given [model_path]. *)
Definition resolved_path {RS : Type} (W : World RS) (p : string) : string :=
  if String.prefix "/" p then p else module_dir W ++ "/assets/" ++ p.

(** How [truncate_paths] leaves a path [p] when it returns: tagged as
    not terminated, untouched, or cut to [n] steps and tagged terminated. *)
Inductive path_outcome (p p' : TPath) : Prop :=
| outcome_running (first : bool) (done : list bool) :
    tp_done p = Some (first :: done) ->
    List.last (first :: done) first = false ->
    p' = mkTPath (tp_arrays p) (tp_done p) (Some false) ->
    path_outcome p p'
| outcome_untouched (done : list bool) :
    tp_done p = Some (true :: done) ->
    List.last (true :: done) true = true ->
    p' = p ->
    path_outcome p p'
| outcome_cut (done : list bool) (arrays' : list (string * np.ndarray)) :
    tp_done p = Some (false :: done) ->
    List.last (false :: done) false = true ->
    tp_terminated p = None ->
    slice_entries (count_not_done (false :: done) + 2) (tp_arrays p) = (Ok tt, arrays') ->
    p' = mkTPath arrays' (Some (take (count_not_done (false :: done) + 2) (false :: done)))
           (Some true) ->
    path_outcome p p'.

(** The length of an array along its first axis, if it has one. *)
Definition first_axis_len (a : np.ndarray) : option nat := List.hd_error (np.shape a).

(** Every array entry of the path has as many steps as its done flags. *)
Definition aligned (p : TPath) : Prop :=
  exists done, tp_done p = Some done
               /\ Forall (fun ka => first_axis_len (snd ka) = Some (length done)) (tp_arrays p).

(** * Binary64 comparisons *)

Section FloatOrder.

Lemma SFcompare_antisym (a b : spec_float) :
  SFcompare b a = option_map CompOpp (SFcompare a b).
Proof.
  destruct a as [s1|s1| |s1 m1 e1], b as [s2|s2| |s2 m2 e2]; simpl;
    try destruct s1; try destruct s2; simpl; try reflexivity.
  all: rewrite (Z.compare_antisym e2 e1); destruct (e2 ?= e1)%Z; simpl; try reflexivity.
  all: change (Pos.compare_cont Eq m2 m1) with (m2 ?= m1)%positive;
    change (Pos.compare_cont Eq m1 m2) with (m1 ?= m2)%positive;
    rewrite (Pos.compare_antisym m2 m1); destruct (m2 ?= m1)%positive; reflexivity.
Qed.

Lemma SFcompare_refl (a : spec_float) :
  a <> S754_nan -> SFcompare a a = Some Eq.
Proof.
  destruct a as [s|s| |s m e]; simpl; try congruence; try (destruct s; reflexivity).
  intros _. rewrite Z.compare_refl.
  change (Pos.compare_cont Eq m m) with (m ?= m)%positive.
  rewrite Pos.compare_refl. destruct s; reflexivity.
Qed.

Lemma SFcompare_None (a b : spec_float) :
  SFcompare a b = None -> a = S754_nan \/ b = S754_nan.
Proof. destruct a, b; simpl; intros; try discriminate; auto. Qed.

Lemma SFcompare_Eq_finite (a : spec_float) (s : bool) (m : positive) (e : Z) :
  SFcompare a (S754_finite s m e) = Some Eq -> a = S754_finite s m e.
Proof.
  destruct a as [s1|s1| |s1 m1 e1]; simpl; try (destruct s1; discriminate);
    try (destruct s; discriminate); try discriminate.
  destruct s1, s; try discriminate; intros E;
    destruct (e1 ?= e)%Z eqn:Ee; try discriminate;
    apply Z.compare_eq in Ee; subst e1;
    change (Pos.compare_cont Eq m1 m) with (m1 ?= m)%positive in E;
    destruct (m1 ?= m)%positive eqn:Em; try discriminate;
    apply Pos.compare_eq in Em; subst m1; reflexivity.
Qed.

Lemma is_nan_spec (x : float) :
  PrimFloat.is_nan x = true <-> Prim2SF x = S754_nan.
Proof.
  unfold PrimFloat.is_nan. rewrite FloatAxioms.eqb_spec. unfold SFeqb. split.
  - intros E. destruct (Prim2SF x) eqn:P; try reflexivity;
      rewrite SFcompare_refl in E by congruence; discriminate.
  - intros ->. reflexivity.
Qed.

Lemma is_nan_false (x : float) :
  PrimFloat.is_nan x = false -> Prim2SF x <> S754_nan.
Proof.
  intros E P. apply is_nan_spec in P. congruence.
Qed.

Lemma ltb_nan_l (x y : float) :
  PrimFloat.is_nan x = true -> PrimFloat.ltb x y = false.
Proof.
  intros N. apply is_nan_spec in N. rewrite FloatAxioms.ltb_spec. unfold SFltb.
  rewrite N. reflexivity.
Qed.

Lemma ltb_nan_r (x y : float) :
  PrimFloat.is_nan y = true -> PrimFloat.ltb x y = false.
Proof.
  intros N. apply is_nan_spec in N. rewrite FloatAxioms.ltb_spec. unfold SFltb.
  rewrite N. destruct (Prim2SF x); reflexivity.
Qed.

Lemma ltb_asym (x y : float) :
  PrimFloat.ltb x y = true -> PrimFloat.ltb y x = false.
Proof.
  rewrite !FloatAxioms.ltb_spec. unfold SFltb.
  rewrite (SFcompare_antisym (Prim2SF x) (Prim2SF y)).
  destruct (SFcompare (Prim2SF x) (Prim2SF y)) as [[]|]; simpl; congruence.
Qed.

Lemma ltb_leb (x y : float) :
  PrimFloat.ltb x y = true -> PrimFloat.leb x y = true.
Proof.
  rewrite FloatAxioms.ltb_spec, FloatAxioms.leb_spec. unfold SFltb, SFleb.
  destruct (SFcompare (Prim2SF x) (Prim2SF y)) as [[]|]; simpl; congruence.
Qed.

Lemma not_ltb_leb (x y : float) :
  PrimFloat.is_nan x = false -> PrimFloat.is_nan y = false ->
  PrimFloat.ltb y x = false -> PrimFloat.leb x y = true.
Proof.
  intros Nx Ny. rewrite FloatAxioms.ltb_spec, FloatAxioms.leb_spec. unfold SFltb, SFleb.
  rewrite (SFcompare_antisym (Prim2SF x) (Prim2SF y)).
  destruct (SFcompare (Prim2SF x) (Prim2SF y)) as [[]|] eqn:E; simpl; try congruence.
  apply SFcompare_None in E. destruct E as [E|E]; apply is_nan_spec in E; congruence.
Qed.

(** Neither below nor above a finite non-zero constant, and not NaN: equal to it. *)
Lemma between_eq (x c : float) (s : bool) (m : positive) (e : Z) :
  Prim2SF c = S754_finite s m e ->
  PrimFloat.is_nan x = false ->
  PrimFloat.ltb x c = false -> PrimFloat.ltb c x = false -> x = c.
Proof.
  intros Pc Nx. rewrite !FloatAxioms.ltb_spec. unfold SFltb.
  rewrite (SFcompare_antisym (Prim2SF x) (Prim2SF c)).
  destruct (SFcompare (Prim2SF x) (Prim2SF c)) as [[]|] eqn:E; simpl; try congruence.
  - intros _ _. rewrite Pc in E. apply SFcompare_Eq_finite in E.
    apply Prim2SF_inj. congruence.
  - apply SFcompare_None in E. destruct E as [E|E].
    + apply is_nan_spec in E. congruence.
    + congruence.
Qed.

End FloatOrder.

(** * Summation and casts *)

Lemma pairwise_sum_S (d : nat) (l : list float) :
  np.pairwise_sum (S d) l
  = if (length l <? 8)%nat then np.sum_loop 0%float l
    else if (length l <=? 128)%nat then np.sum_block l
    else PrimFloat.add
           (np.pairwise_sum d (take (length l / 2 - (length l / 2) mod 8) l))
           (np.pairwise_sum d (drop (length l / 2 - (length l / 2) mod 8) l)).
Proof. reflexivity. Qed.

(** The halvings of [pairwise_sum] never run out: any depth from the
    length of the vector on gives the same sum. *)
Lemma pairwise_sum_depth (d : nat) (l : list float) :
  length l <= d -> np.pairwise_sum d l = np.pairwise_sum (length l) l.
Proof.
  assert (forall d1 d2 (l : list float), length l <= d1 -> length l <= d2 ->
            np.pairwise_sum d1 l = np.pairwise_sum d2 l) as G.
  { clear. induction d1 as [|d1 IH]; intros d2 l H1 H2.
    - destruct l; [|simpl in H1; lia]. destruct d2; reflexivity.
    - destruct d2 as [|d2].
      + destruct l; [|simpl in H2; lia]. reflexivity.
      + rewrite !pairwise_sum_S. destruct (length l <? 8)%nat eqn:E8; [reflexivity|].
        destruct (length l <=? 128)%nat eqn:E128; [reflexivity|].
        apply Nat.leb_gt in E128.
        pose proof (Nat.div_mod_eq (length l) 2) as Hd.
        pose proof (Nat.mod_upper_bound (length l) 2 ltac:(lia)) as Hm.
        pose proof (Nat.mod_upper_bound (length l / 2) 8 ltac:(lia)) as Hm8.
        f_equal; apply IH; rewrite ?length_take, ?length_drop; lia. }
  intros Hd. apply G; [assumption|reflexivity].
Qed.

Lemma astype_float32_repeat (x : float) (n : nat) :
  np.astype_float32 (repeat x n) = repeat (as_float32 x) n.
Proof.
  unfold np.astype_float32. induction n as [|n IH]; [reflexivity|].
  simpl. f_equal. exact IH.
Qed.

(** The cast moves a number float32 cannot hold: 0.1 (the binary64
    number nearest to it) becomes 0.100000001490116... *)
Lemma as_float32_rounds :
  as_float32 0x1.999999999999ap-4%float = 0x1.99999ap-4%float
  /\ as_float32 0x1.999999999999ap-4%float <> 0x1.999999999999ap-4%float.
Proof. split; vm_compute; [reflexivity|discriminate]. Qed.

Lemma astype_float32_length (a : list float) :
  length (np.astype_float32 a) = length a.
Proof. unfold np.astype_float32. apply length_map. Qed.

(** * Clipping *)

Lemma clip_elem_clamp (x : float) :
  np.minimum (np.maximum x (-1)%float) 1%float = clamp x.
Proof.
  unfold np.minimum, np.maximum, clamp.
  destruct (PrimFloat.is_nan x) eqn:N; simpl.
  - rewrite N. simpl. rewrite (ltb_nan_l x _ N), (ltb_nan_r _ x N). reflexivity.
  - destruct (PrimFloat.ltb (-1)%float x) eqn:L1.
    + rewrite N. simpl. rewrite (ltb_asym _ _ L1).
      destruct (PrimFloat.ltb x 1%float) eqn:L2.
      * rewrite (ltb_asym _ _ L2). reflexivity.
      * destruct (PrimFloat.ltb 1%float x) eqn:L3; [reflexivity|].
        symmetry. eapply (between_eq x 1%float); [vm_compute; reflexivity | assumption..].
    + change (PrimFloat.is_nan (-1)%float || PrimFloat.ltb (-1)%float 1%float) with true.
      cbv iota.
      destruct (PrimFloat.ltb x (-1)%float) eqn:L2; [reflexivity|].
      assert (x = (-1)%float) as ->
        by (eapply (between_eq x (-1)%float); [vm_compute; reflexivity | assumption..]).
      reflexivity.
Qed.

Lemma clip_clamp (a : list float) :
  np.clip a (-1)%float 1%float = map clamp a.
Proof.
  unfold np.clip. apply map_ext. intros x. apply clip_elem_clamp.
Qed.

Lemma clamp_in_unit_interval (x : float) :
  PrimFloat.is_nan (clamp x) = false -> in_unit_interval (clamp x) = true.
Proof.
  unfold clamp, in_unit_interval.
  destruct (PrimFloat.ltb x (-1)%float) eqn:L1; [reflexivity|].
  destruct (PrimFloat.ltb 1%float x) eqn:L2; [reflexivity|].
  intros N. rewrite (not_ltb_leb (-1)%float x), (not_ltb_leb x 1%float); auto.
Qed.

(** * Seeding *)

Lemma utils_seeding_np_random_accepted {RS : Type} (W : World RS) (s : option Z) :
  seed_accepted s -> utils_seeding_np_random W s = Ret (seeding_np_random W s).
Proof.
  unfold seed_accepted, utils_seeding_np_random. intros Hs.
  destruct s as [n|]; [|reflexivity].
  destruct (Z.ltb_spec n 0); [|reflexivity].
  specialize (Hs n eq_refl). lia.
Qed.

Lemma utils_seeding_np_random_refused {RS : Type} (W : World RS) (s : option Z) (n : Z) :
  s = Some n -> (n < 0)%Z ->
  utils_seeding_np_random W s
  = Raise (GymError ("Seed must be a non-negative integer or omitted, not " ++ pretty n)).
Proof.
  intros -> Hn. unfold utils_seeding_np_random.
  destruct (Z.ltb_spec n 0); [reflexivity|lia].
Qed.

(** * Running a method *)

(** Unfold the plumbing of [M] and split on every call that may raise. *)
Ltac unfold_M :=
  unfold bind, get, modify, lift, ret, raise, py_assert in *.

Ltac split_calls :=
  repeat match goal with
         | |- context [match ?x with _ => _ end] =>
             lazymatch x with
             | context [match _ with _ => _ end] => fail
             | _ => destruct x eqn:?
             end
         end.

Section Frames.
Context {RS : Type} (W : World RS) (H : Hooks).
Implicit Type e : Env RS.

(** What [get_obs] leaves alone. *)
Lemma get_obs_keeps e :
  let e' := snd (get_obs W H e) in
  sim e' = sim e /\ last_ctrl e' = last_ctrl e /\ obs_keys e' = obs_keys e /\
  obs_dim e' = obs_dim e /\ init_qpos e' = init_qpos e /\ init_qvel e' = init_qvel e /\
  rwd_mode e' = rwd_mode e /\ rwd_dict e' = rwd_dict e.
Proof.
  unfold get_obs. unfold_M. split_calls; simpl; repeat split; reflexivity.
Qed.

(** What [step] does to the attributes, whether or not it raises: the
    simulation and the control are those the robot returned for the
    clipped action; the configuration is untouched. *)
Lemma step_keeps e (a : list float) :
  let e' := snd (step W H a e) in
  let '(_, s, ctrl) :=
    robot_step W (robot e) (sim e) (np.clip a (-1)%float 1%float)
      (act_normalized e) (dt e) (mujoco_render_frames e) in
  sim e' = s /\ last_ctrl e' = ctrl /\ obs_keys e' = obs_keys e /\
  obs_dim e' = obs_dim e /\ init_qpos e' = init_qpos e /\ init_qvel e' = init_qvel e /\
  rwd_mode e' = rwd_mode e.
Proof.
  unfold step, get_env_infos, get_obs. unfold_M.
  destruct (robot_step W (robot e) (sim e) (np.clip a (-1)%float 1%float)
              (act_normalized e) (dt e) (mujoco_render_frames e)) as [[r s] ctrl].
  split_calls; simpl; repeat split; reflexivity.
Qed.

End Frames.

(** * The step *)

Ltac split_calls_in Hyp :=
  repeat match type of Hyp with
         | context [match ?x with _ => _ end] =>
             lazymatch x with
             | context [match _ with _ => _ end] => fail
             | _ => destruct x eqn:?; try discriminate Hyp
             end
         end.

Section Step.
Context {RS : Type} (W : World RS) (H : Hooks).
Implicit Type e : Env RS.

Lemma getitem_Ret (d : dict) (k : string) (v : np.ndarray) :
  getitem d k = Ret v <-> d !! k = Some v.
Proof. unfold getitem. destruct (d !! k); split; congruence. Qed.

Lemma getitem_Raise (d : dict) (k : string) (x : exn) :
  getitem d k = Raise x <-> d !! k = None /\ x = KeyError k.
Proof.
  unfold getitem. destruct (d !! k); split; try congruence.
  - intros [? _]. congruence.
  - intros [= <-]. auto.
  - intros [_ ->]. reflexivity.
Qed.

(** [step] is its later phases run after [robot_phase]; when it returns,
    the reward dictionary in force is the squeezed result of the hook and
    the tuple is read from it. *)
Lemma step_Ret e (a : list float) obs reward done info e' :
  step W H a e = (Ret (obs, reward, done, info), e') ->
  exists e2 rwd t dense sparse solved dn,
    get_obs W H (robot_phase W a e) = (Ret obs, e2) /\
    get_reward_dict H (expand_dims W (obs_dict e2)) = Ret rwd /\
    rwd_dict e' = squeeze_dims W rwd /\
    obs_dict e' = squeeze_dims W (expand_dims W (obs_dict e2)) /\
    obs_dict e' !! "t" = Some t /\
    rwd_dict e' !! "dense" = Some dense /\
    rwd_dict e' !! "sparse" = Some sparse /\
    rwd_dict e' !! "solved" = Some solved /\
    rwd_dict e' !! "done" = Some dn /\
    info = mkEnvInfo (item t) (item dense) (item sparse) (item solved) (item dn)
             (obs_dict e') (rwd_dict e') /\
    env_info_getitem info ("rwd_" ++ rwd_mode e') = Ret reward /\
    py_bool (item dn) = Ret done.
Proof.
  unfold step, robot_phase, get_env_infos. unfold_M.
  destruct (robot_step W (robot e) (sim e) (np.clip a (-1)%float 1%float)
              (act_normalized e) (dt e) (mujoco_render_frames e)) as [[r s] ctrl].
  intros E. split_calls_in E. simpl in *.
  injection E as <- <- <- <- <-.
  repeat match goal with
         | G : getitem _ _ = Ret _ |- _ => apply getitem_Ret in G
         end.
  match goal with
  | G : env_info_getitem _ "done" = Ret _ |- _ =>
      unfold env_info_getitem in G; simpl in G; injection G as <-
  end.
  simpl. eauto 20.
Qed.

End Step.

(** * Clipping of the action (C1) *)

Lemma clip_repeat (x : float) (n : nat) :
  np.clip (repeat x n) (-1)%float 1%float = repeat (clamp x) n.
Proof.
  rewrite clip_clamp. induction n as [|n IH]; simpl; [reflexivity|].
  f_equal. exact IH.
Qed.

(** C1: [step(a)] clamps every component of [a] to [-1,1] (a component
    below -1 becomes -1, one above 1 becomes 1, the others are kept, so
    every component that is a number lies in the interval) and hands the
    clamped vector to the robot, whose simulation and control are what the
    step leaves in the adapter.  Hence two actions that agree after
    clamping give the same step (same observation, reward, done, info and
    attributes); in particular the all-2.0 and the all-1.0 vectors do. *)
Theorem step_clips_action {RS : Type} (W : World RS) (H : Hooks) (e : Env RS)
    (a b : list float) :
  np.clip a (-1)%float 1%float = map clamp a
  /\ Forall (fun x => PrimFloat.is_nan x = false -> in_unit_interval x = true)
       (np.clip a (-1)%float 1%float)
  /\ (let '(_, s, ctrl) :=
        robot_step W (robot e) (sim e) (np.clip a (-1)%float 1%float)
          (act_normalized e) (dt e) (mujoco_render_frames e) in
      sim (snd (step W H a e)) = s /\ last_ctrl (snd (step W H a e)) = ctrl)
  /\ (np.clip a (-1)%float 1%float = np.clip b (-1)%float 1%float ->
      step W H a e = step W H b e)
  /\ (forall n : nat, step W H (repeat 2%float n) e = step W H (repeat 1%float n) e).
Proof.
  split; [apply clip_clamp|].
  split.
  { rewrite clip_clamp. apply List.Forall_forall. intros x Hx.
    apply in_map_iff in Hx. destruct Hx as (y & <- & _).
    apply clamp_in_unit_interval. }
  split.
  { pose proof (step_keeps W H e a) as K. cbv zeta in K.
    destruct (robot_step W (robot e) (sim e) (np.clip a (-1)%float 1%float)
                (act_normalized e) (dt e) (mujoco_render_frames e)) as [[r s] ctrl].
    destruct K as (K1 & K2 & _). split; assumption. }
  split.
  { intros E. unfold step. cbv zeta. rewrite E. reflexivity. }
  intros n. unfold step. cbv zeta. rewrite !clip_repeat. reflexivity.
Qed.

Lemma step_clips_action_witness :
  step Slider.world Slider.hooks [2%float] Slider.env0
  = step Slider.world Slider.hooks [1%float] Slider.env0.
Proof.
  refine (proj1 (proj2 (proj2 (proj2
    (step_clips_action Slider.world Slider.hooks Slider.env0 [2%float] [1%float])))) _).
  vm_compute. reflexivity.
Defined.

(** * Termination of the episode (C2) *)

(** C2: when [step(a)] returns, its done flag is the truth value of the
    "done" entry of the reward dictionary computed in that step (the
    squeezed result of [get_reward_dict], kept in [rwd_dict] and handed
    back in the info): done is True if and only if that entry is true. *)
Theorem step_done_iff_reward_done {RS : Type} (W : World RS) (H : Hooks) (e : Env RS)
    (a : list float) (obs : list float) (reward : pyval) (done : bool)
    (info : EnvInfo) (e' : Env RS) :
  step W H a e = (Ret (obs, reward, done, info), e') ->
  exists (od rwd : dict) (d : np.ndarray),
    get_reward_dict H od = Ret rwd
    /\ rwd_dict e' = squeeze_dims W rwd
    /\ info_rwd_dict info = rwd_dict e'
    /\ rwd_dict e' !! "done" = Some d
    /\ info_done info = item d
    /\ py_bool (item d) = Ret done
    /\ (done = true <-> py_bool (item d) = Ret true).
Proof.
  intros E. apply step_Ret in E.
  destruct E as (e2 & rwd & t & dense & sparse & solved & dn & _ & Hr & Hs & _ & _ &
                 _ & _ & _ & Hd & -> & _ & Hb).
  exists (expand_dims W (obs_dict e2)), rwd, dn. simpl.
  repeat split; try assumption; try reflexivity.
  - intros ->. assumption.
  - intros Ht. congruence.
Qed.

Lemma step_done_iff_reward_done_witness :
  exists d : np.ndarray,
    rwd_dict Slider.env2 !! "done" = Some d /\ py_bool (item d) = Ret true.
Proof.
  assert (exists o r i,
             step Slider.world Slider.hooks [1%float] Slider.env1
             = (Ret (o, r, true, i), Slider.env2)) as (o & r & i & E)
    by (vm_compute; eauto).
  destruct (step_done_iff_reward_done Slider.world Slider.hooks Slider.env1
              [1%float] o r true i Slider.env2 E)
    as (od & rwd & d & _ & _ & _ & Hd & _ & Hb & _).
  exists d. split; assumption.
Defined.

(** * Reset and state injection (C5, C6) *)

(** [reset()] hands the recorded pose and velocity to the robot; building
    the observation afterwards does not move the simulation. *)
Lemma reset_pose {RS : Type} (W : World RS) (H : Hooks) (e : Env RS) :
  data_qpos (sim (snd (reset W H None None e))) = init_qpos e
  /\ data_qvel (sim (snd (reset W H None None e))) = init_qvel e
  /\ init_qpos (snd (reset W H None None e)) = init_qpos e
  /\ init_qvel (snd (reset W H None None e)) = init_qvel e.
Proof.
  unfold reset, robot_reset. unfold_M. cbv zeta. simpl.
  set (e1 := set_sim (sim_with_pose (sim e) (init_qpos e) (init_qvel e)) (set_robot (robot e) e)).
  pose proof (get_obs_keeps W H e1) as K. cbv zeta in K.
  destruct K as (Ks & _ & _ & _ & Kp & Kv & _).
  destruct (get_obs W H e1) as [[obs|x] e2]; simpl in *;
    rewrite ?Ks, ?Kp, ?Kv; repeat split; reflexivity.
Qed.

(** C5: after [reset()] with no arguments, whether or not the observation
    that follows can be built, the simulator state read back ([get_state]
    or [get_env_state]) has exactly the pose [init_qpos] and the velocity
    [init_qvel] recorded at construction, and those records are unchanged. *)
Theorem reset_restores_init {RS : Type} (W : World RS) (H : Hooks) (e : Env RS) :
  st_qpos (sim_get_state (sim (snd (reset W H None None e)))) = init_qpos e
  /\ st_qvel (sim_get_state (sim (snd (reset W H None None e)))) = init_qvel e
  /\ es_qpos (get_env_state (snd (reset W H None None e))) = init_qpos e
  /\ es_qvel (get_env_state (snd (reset W H None None e))) = init_qvel e
  /\ init_qpos (snd (reset W H None None e)) = init_qpos e
  /\ init_qvel (snd (reset W H None None e)) = init_qvel e.
Proof.
  destruct (reset_pose W H e) as (Hq & Hv & Hiq & Hiv).
  unfold sim_get_state, get_env_state. simpl. auto 10.
Qed.

(** C6: for [qpos] of shape (nq,) and [qvel] of shape (nv,),
    [set_state(qpos, qvel)] returns and the state read back afterwards
    ([get_env_state], or the simulator's own [get_state]) carries exactly
    that pose and velocity. *)
Theorem set_state_round_trip {RS : Type} (W : World RS) (e : Env RS)
    (qpos qvel : list float) :
  length qpos = model_nq (sim e) ->
  length qvel = model_nv (sim e) ->
  fst (set_state W qpos qvel e) = Ret tt
  /\ es_qpos (get_env_state (snd (set_state W qpos qvel e))) = qpos
  /\ es_qvel (get_env_state (snd (set_state W qpos qvel e))) = qvel
  /\ st_qpos (sim_get_state (sim (snd (set_state W qpos qvel e)))) = qpos
  /\ st_qvel (sim_get_state (sim (snd (set_state W qpos qvel e)))) = qvel.
Proof.
  intros Hq Hv. unfold set_state. unfold_M.
  rewrite Hq, Hv, !Nat.eqb_refl. simpl. repeat split; reflexivity.
Qed.

Lemma set_state_round_trip_witness :
  es_qpos (get_env_state (snd (set_state Slider.world [0.25%float] [0.5%float] Slider.env0)))
  = [0.25%float]
  /\ es_qvel (get_env_state (snd (set_state Slider.world [0.25%float] [0.5%float] Slider.env0)))
     = [0.5%float].
Proof.
  destruct (set_state_round_trip Slider.world Slider.env0 [0.25%float] [0.5%float])
    as (_ & Hq & Hv & _).
  - vm_compute. reflexivity.
  - vm_compute. reflexivity.
  - split; assumption.
Defined.

(** * The hooks a subclass must override (C7) *)

(** C7: on the base class, [get_obs_dict] and [get_reward_dict] raise
    [NotImplementedError] for every input, at the time of the call; so do
    [get_obs] and [step] of an adapter that overrides neither, and [step]
    of one that overrides only the observation hook, once its observation
    has been built. *)
Theorem hooks_not_implemented {RS : Type} (W : World RS) (e : Env RS)
    (s : MjSim) (d : dict) (a : list float) :
  get_obs_dict MujocoEnv_hooks s = Raise NotImplementedError
  /\ get_reward_dict MujocoEnv_hooks d = Raise NotImplementedError
  /\ fst (get_obs W MujocoEnv_hooks e) = Raise NotImplementedError
  /\ fst (step W MujocoEnv_hooks a e) = Raise NotImplementedError
  /\ (forall (f : MjSim -> outcome dict) (obs : list float) (e2 : Env RS),
        get_obs W (mkHooks f (get_reward_dict MujocoEnv_hooks)) (robot_phase W a e)
        = (Ret obs, e2) ->
        fst (step W (mkHooks f (get_reward_dict MujocoEnv_hooks)) a e)
        = Raise NotImplementedError).
Proof.
  split; [reflexivity|]. split; [reflexivity|].
  split.
  { unfold get_obs. unfold_M. simpl.
    destruct (robot_get_sensors W (robot e) (sim e)); reflexivity. }
  split.
  { unfold step, get_obs. unfold_M. simpl.
    destruct (robot_step W (robot e) (sim e) (np.clip a (-1)%float 1%float)
                (act_normalized e) (dt e) (mujoco_render_frames e)) as [[r s'] ctrl].
    simpl. destruct (robot_get_sensors W r s'); reflexivity. }
  intros f obs e2 E. unfold step. unfold_M. unfold robot_phase in E.
  destruct (robot_step W (robot e) (sim e) (np.clip a (-1)%float 1%float)
              (act_normalized e) (dt e) (mujoco_render_frames e)) as [[r s'] ctrl].
  rewrite E. reflexivity.
Qed.

(** * Malformed reward dictionaries (C8) *)

Section Observation.
Context {RS : Type} (W : World RS) (H : Hooks).
Implicit Type e : Env RS.

(** A returned observation is the concatenation, in the order of
    [obs_keys], of the entries of the dictionary the hook produced, which
    has its time entry. *)
Lemma get_obs_Ret e (obs : list float) e2 :
  get_obs W H e = (Ret obs, e2) ->
  (exists so, get_obs_dict H so = Ret (obs_dict e2))
  /\ (exists t, obs_dict e2 !! "t" = Some t)
  /\ concat_entries (obs_dict e2) (obs_keys e) = Ret obs
  /\ obs_keys e2 = obs_keys e.
Proof.
  unfold get_obs, obsdict2obsvec. unfold_M. intros E.
  destruct (robot_get_sensors W (robot e) (sim e)) as [r sen]. simpl in E.
  split_calls_in E. injection E as <- <-. simpl.
  repeat split; eauto.
Qed.

Lemma lookup_squeeze_dims (d : dict) (k : string) :
  squeeze_dims W d !! k = squeeze_entry W <$> (d !! k).
Proof. unfold squeeze_dims. apply lookup_fmap. Qed.

Lemma lookup_expand_dims (d : dict) (k : string) :
  expand_dims W d !! k = expand_entry W <$> (d !! k).
Proof. unfold expand_dims. apply lookup_fmap. Qed.

End Observation.

(** The reads of [get_env_infos], in order, on a reward dictionary that
    lacks a required key: the first missing one raises. *)
Lemma first_missing_key (d : dict) :
  (exists k, In k required_keys /\ d !! k = None) ->
  exists k, In k required_keys /\ d !! k = None /\
    match getitem d "dense" with
    | Raise x => Raise x
    | Ret _ =>
        match getitem d "sparse" with
        | Raise x => Raise x
        | Ret _ =>
            match getitem d "solved" with
            | Raise x => Raise x
            | Ret _ =>
                match getitem d "done" with
                | Raise x => Raise x
                | Ret v => Ret v
                end
            end
        end
    end = Raise (KeyError k).
Proof.
  intros (k & Hin & Hk). unfold getitem, required_keys in *.
  destruct (d !! "dense") eqn:E1; [|exists "dense"; simpl; auto].
  destruct (d !! "sparse") eqn:E2; [|exists "sparse"; simpl; auto].
  destruct (d !! "solved") eqn:E3; [|exists "solved"; simpl; auto].
  destruct (d !! "done") eqn:E4; [|exists "done"; simpl; auto 6].
  simpl in Hin. destruct Hin as [<-|[<-|[<-|[<-|[]]]]]; congruence.
Qed.

(** C8: when the dictionary [get_reward_dict] produced in a step lacks
    one of the required keys "dense", "sparse", "solved", "done", the step
    does not return a tuple: it raises [KeyError] naming a required key
    that is missing (the first one [get_env_infos] reads). *)
Theorem step_missing_reward_key {RS : Type} (W : World RS) (H : Hooks) (e : Env RS)
    (a : list float) (obs : list float) (e2 : Env RS) (rwd : dict) :
  get_obs W H (robot_phase W a e) = (Ret obs, e2) ->
  get_reward_dict H (expand_dims W (obs_dict e2)) = Ret rwd ->
  (exists k, In k required_keys /\ rwd !! k = None) ->
  exists k, In k required_keys /\ rwd !! k = None
            /\ fst (step W H a e) = Raise (KeyError k)
            /\ returns (fst (step W H a e)) = false.
Proof.
  intros Eo Er Hmiss.
  assert (exists k, In k required_keys /\ squeeze_dims W rwd !! k = None) as Hmiss'.
  { destruct Hmiss as (k & Hin & Hk). exists k. split; [assumption|].
    rewrite lookup_squeeze_dims, Hk. reflexivity. }
  apply first_missing_key in Hmiss'. destruct Hmiss' as (k & Hin & Hk & Hread).
  exists k. split; [assumption|]. split.
  { rewrite lookup_squeeze_dims in Hk. destruct (rwd !! k); [discriminate|reflexivity]. }
  destruct (get_obs_Ret W H _ _ _ Eo) as (_ & (t & Ht) & _ & _).
  assert (fst (step W H a e) = Raise (KeyError k)) as ->; [|split; reflexivity].
  unfold step, get_env_infos. unfold_M. unfold robot_phase in Eo.
  destruct (robot_step W (robot e) (sim e) (np.clip a (-1)%float 1%float)
              (act_normalized e) (dt e) (mujoco_render_frames e)) as [[r s] ctrl].
  rewrite Eo. simpl. rewrite Er. simpl.
  unfold getitem at 1. rewrite lookup_squeeze_dims, lookup_expand_dims, Ht. simpl.
  revert Hread.
  destruct (getitem (squeeze_dims W rwd) "dense"); [|intros [= ->]; reflexivity].
  destruct (getitem (squeeze_dims W rwd) "sparse"); [|intros [= ->]; reflexivity].
  destruct (getitem (squeeze_dims W rwd) "solved"); [|intros [= ->]; reflexivity].
  destruct (getitem (squeeze_dims W rwd) "done"); [discriminate|intros [= ->]; reflexivity].
Qed.

Lemma step_missing_reward_key_witness :
  exists k, In k required_keys
            /\ fst (step Slider.world Slider.forgetful_hooks [0%float] Slider.env0)
               = Raise (KeyError k).
Proof.
  assert (exists obs rwd,
             get_obs Slider.world Slider.forgetful_hooks
               (robot_phase Slider.world [0%float] Slider.env0)
             = (Ret obs, snd (get_obs Slider.world Slider.forgetful_hooks
                                (robot_phase Slider.world [0%float] Slider.env0)))
             /\ get_reward_dict Slider.forgetful_hooks
                  (expand_dims Slider.world
                     (obs_dict (snd (get_obs Slider.world Slider.forgetful_hooks
                                       (robot_phase Slider.world [0%float] Slider.env0)))))
                = Ret rwd
             /\ rwd !! "solved" = None) as (obs & rwd & Eo & Er & Hs)
    by (eexists; eexists; split; [|split]; vm_compute; reflexivity).
  destruct (step_missing_reward_key Slider.world Slider.forgetful_hooks Slider.env0
              [0%float] obs _ rwd Eo Er) as (k & Hin & _ & Hk & _).
  - exists "solved". split; [simpl; auto|assumption].
  - exists k. split; assumption.
Defined.

(** * Construction (C10) *)

(** C10: a constructor that returns has taken exactly one step, with the
    all-zeros action, from the freshly resolved attributes, and that step
    reported done = False (the "done" entry of the reward dictionary the
    adapter starts with is false); [init_qpos], [init_qvel] are the pose
    and velocity found after that step, [obs_dim] the size of its
    observation, and they are what [reset()] puts back.  When that first
    step reports done = True the constructor raises the assertion failure
    instead.  When it reports done = False the constructor does return,
    with those attributes; and an exception raised while resolving the
    attributes or by the first step is the constructor's. *)
Theorem init_takes_zero_step {RS : Type} (W : World RS) (H : Hooks) (c : Config) :
  (forall e : Env RS,
      __init__ W H c = Ret e ->
      exists e0 obs reward info e1 d,
        init_attributes W c = Ret e0
        /\ step W H (np.zeros (model_nu (sim e0))) e0 = (Ret (obs, reward, false, info), e1)
        /\ init_qpos e = data_qpos (sim e1)
        /\ init_qvel e = data_qvel (sim e1)
        /\ obs_dim e = length obs
        /\ sim e = sim e1
        /\ rwd_dict e !! "done" = Some d /\ py_bool (item d) = Ret false
        /\ es_qpos (get_env_state (snd (reset W H None None e))) = data_qpos (sim e1)
        /\ es_qvel (get_env_state (snd (reset W H None None e))) = data_qvel (sim e1))
  /\ (forall (e0 : Env RS) obs reward info e1,
        init_attributes W c = Ret e0 ->
        step W H (np.zeros (model_nu (sim e0))) e0 = (Ret (obs, reward, true, info), e1) ->
        __init__ W H c
        = Raise (AssertionError "Checking initialization. Simulation starts in a done state."))
  /\ (forall (e0 : Env RS) obs reward info e1,
        init_attributes W c = Ret e0 ->
        step W H (np.zeros (model_nu (sim e0))) e0 = (Ret (obs, reward, false, info), e1) ->
        exists e : Env RS,
          __init__ W H c = Ret e
          /\ sim e = sim e1 /\ robot e = robot e1
          /\ obs_dict e = obs_dict e1 /\ rwd_dict e = rwd_dict e1
          /\ obs_dim e = length obs
          /\ init_qpos e = data_qpos (sim e1)
          /\ init_qvel e = data_qvel (sim e1))
  /\ (forall (e0 : Env RS) x e1,
        init_attributes W c = Ret e0 ->
        step W H (np.zeros (model_nu (sim e0))) e0 = (Raise x, e1) ->
        __init__ W H c = Raise x)
  /\ (forall x, init_attributes W c = Raise x -> __init__ W H c = Raise x).
Proof.
  split; [|split; [|split; [|split]]].
  - intros e E. unfold __init__ in E.
    destruct (init_attributes W c) as [e0|x]; [|discriminate].
    destruct (step W H (np.zeros (model_nu (sim e0))) e0)
      as [[[[[obs reward] done] info]|x] e1] eqn:Es; [|discriminate].
    destruct done; [discriminate|]. injection E as <-.
    destruct (step_Ret W H _ _ _ _ _ _ _ Es)
      as (e2 & rwd & t & dense & sparse & solved & dn & _ & _ & _ & _ & _ &
          _ & _ & _ & Hd & _ & _ & Hb).
    destruct (reset_pose W H
                (set_finalize (length obs)
                   (spaces_Box (np.scale (fst (cfg_obs_range c)) (np.ones (length obs)))
                               (np.scale (snd (cfg_obs_range c)) (np.ones (length obs))))
                   (data_qpos (sim e1)) (data_qvel (sim e1)) e1))
      as (Hq & Hv & _ & _).
    exists e0, obs, reward, info, e1, dn. simpl in *.
    repeat split; try reflexivity; assumption.
  - intros e0 obs reward info e1 E0 Es. unfold __init__. rewrite E0, Es. reflexivity.
  - intros e0 obs reward info e1 E0 Es. unfold __init__. rewrite E0, Es.
    eexists. split; [reflexivity|]. simpl. repeat split; reflexivity.
  - intros e0 x e1 E0 Es. unfold __init__. rewrite E0, Es. reflexivity.
  - intros x E0. unfold __init__. rewrite E0. reflexivity.
Qed.

Lemma init_takes_zero_step_witness :
  (exists e e1 : Env nat,
      __init__ Slider.world Slider.hooks Slider.config = Ret e
      /\ init_qpos e = data_qpos (sim e1)
      /\ init_qvel e = data_qvel (sim e1)
      /\ es_qpos (get_env_state (snd (reset Slider.world Slider.hooks None None e)))
         = data_qpos (sim e1))
  /\ __init__ Slider.world Slider.hooks Slider.far_config
     = Raise (AssertionError "Checking initialization. Simulation starts in a done state.").
Proof.
  split.
  - assert (exists e0 obs reward info e1,
               init_attributes Slider.world Slider.config = Ret e0
               /\ step Slider.world Slider.hooks (np.zeros (model_nu (sim e0))) e0
                  = (Ret (obs, reward, false, info), e1))
      as (e0 & obs & reward & info & e1 & E0 & Es)
      by (do 5 eexists; split; [vm_compute; reflexivity|vm_compute; reflexivity]).
    destruct (proj1 (proj2 (proj2
                (init_takes_zero_step Slider.world Slider.hooks Slider.config)))
                e0 obs reward info e1 E0 Es) as (e & Ei & _).
    destruct (proj1 (init_takes_zero_step Slider.world Slider.hooks Slider.config) e Ei)
      as (e0' & obs' & reward' & info' & e1' & d & _ & _ & Hq & Hv & _ & _ & _ & _ & Hr & _).
    exists e, e1'. repeat split; assumption.
  - assert (exists e0 obs reward info e1,
               init_attributes Slider.world Slider.far_config = Ret e0
               /\ step Slider.world Slider.hooks (np.zeros (model_nu (sim e0))) e0
                  = (Ret (obs, reward, true, info), e1))
      as (e0 & obs & reward & info & e1 & E0 & Es)
      by (do 5 eexists; split; [vm_compute; reflexivity|vm_compute; reflexivity]).
    exact (proj1 (proj2 (init_takes_zero_step Slider.world Slider.hooks Slider.far_config))
             e0 obs reward info e1 E0 Es).
Defined.

(** * Success evaluation (C4) *)

Lemma sum_bool_from (l : list bool) (acc : Z) :
  fold_left (fun acc (b : bool) => if b then (acc + 1)%Z else acc) l acc
  = (acc + Z.of_nat (length (filter (fun b => b = true) l)))%Z.
Proof.
  revert acc. induction l as [|b l IH]; intros acc; simpl.
  - lia.
  - rewrite IH. destruct b.
    + rewrite filter_cons_True by reflexivity. simpl length. lia.
    + rewrite filter_cons_False by discriminate. reflexivity.
Qed.

Lemma sum_bool_solved_steps (p : Path) :
  np.sum_bool (env_infos_solved p) = Z.of_nat (solved_steps p).
Proof. unfold np.sum_bool, solved_steps. rewrite sum_bool_from. lia. Qed.

Lemma count_success_from (paths : list Path) (s acc : Z) :
  fold_left
    (fun num_success path =>
       if (s <? np.sum_bool (env_infos_solved path))%Z
       then (num_success + 1)%Z else num_success)
    paths acc
  = (acc + Z.of_nat (successes paths s))%Z.
Proof.
  unfold successes. revert acc. induction paths as [|p paths IH]; intros acc; simpl.
  - lia.
  - rewrite IH. unfold successful at 2. rewrite <- sum_bool_solved_steps.
    destruct (s <? np.sum_bool (env_infos_solved p))%Z; simpl length; lia.
Qed.

Lemma count_success_successes (paths : list Path) (s : Z) :
  count_success paths s = Z.of_nat (successes paths s).
Proof. unfold count_success. rewrite count_success_from. lia. Qed.

(** C4, as the code has it: for every non-empty list of N trajectories of
    which exactly k have their "solved" flags true on more than
    [successful_steps] steps, [evaluate_success] returns 100*k/N (computed
    in binary64 as k*100.0/N); with a logger it returns the same value
    whenever it returns. *)
Theorem evaluate_success_percentage {RS : Type} (e : Env RS) (paths : list Path) (s : Z) :
  paths <> [] ->
  evaluate_success e paths None s
  = Ret (percentage (successes paths s) (length paths), None)
  /\ (forall (l : Logger) (r : float * option Logger),
         evaluate_success e paths (Some l) s = Ret r ->
         fst r = percentage (successes paths s) (length paths)).
Proof.
  intros Hne. unfold evaluate_success, percentage, float_of_nat.
  rewrite count_success_successes.
  destruct paths as [|p paths]; [congruence|].
  change (length (p :: paths) =? 0)%nat with false. cbv iota.
  split; [reflexivity|].
  intros l r E. destruct (horizon e); [|discriminate].
  injection E as <-. reflexivity.
Qed.

Lemma evaluate_success_percentage_witness :
  evaluate_success Slider.env0 Slider.three_paths None 1
  = Ret (percentage 2 3, None).
Proof.
  refine (proj1 (evaluate_success_percentage Slider.env0 Slider.three_paths 1 _)).
  discriminate.
Defined.

(** With no trajectory at all the division by [num_paths] raises. *)
Lemma evaluate_success_empty :
  evaluate_success Slider.env0 [] None 5
  = Raise (ZeroDivisionError "float division by zero").
Proof. reflexivity. Qed.

(** * Path rewards (C9) *)

(** C9, as the code has it: [compute_path_rewards] never returns.  Once
    [paths["observations"]], [obsvec2obsdict] and [get_reward_dict] have
    gone through, the read of the unbound name [reward_dict] raises
    [NameError]; an exception raised by one of those three comes out
    instead. *)
Theorem compute_path_rewards_never_returns {RS : Type} (W : World RS) (H : Hooks)
    (e : Env RS) (paths : dict) :
  returns (compute_path_rewards W H e paths) = false
  /\ (forall observations obs_dict rwd_dict,
         paths !! "observations" = Some observations ->
         obsvec2obsdict W (obs_keys e) observations = Ret obs_dict ->
         get_reward_dict H obs_dict = Ret rwd_dict ->
         compute_path_rewards W H e paths = Raise (NameError "reward_dict"))
  /\ (paths !! "observations" = None ->
      compute_path_rewards W H e paths = Raise (KeyError "observations"))
  /\ (forall observations x,
         paths !! "observations" = Some observations ->
         obsvec2obsdict W (obs_keys e) observations = Raise x ->
         compute_path_rewards W H e paths = Raise x)
  /\ (forall observations obs_dict x,
         paths !! "observations" = Some observations ->
         obsvec2obsdict W (obs_keys e) observations = Ret obs_dict ->
         get_reward_dict H obs_dict = Raise x ->
         compute_path_rewards W H e paths = Raise x).
Proof.
  unfold compute_path_rewards, getitem. repeat split.
  - destruct (paths !! "observations"); [|reflexivity].
    destruct (obsvec2obsdict W (obs_keys e) n); [|reflexivity].
    destruct (get_reward_dict H a); reflexivity.
  - intros observations od rd -> -> ->. reflexivity.
  - intros ->. reflexivity.
  - intros observations x -> ->. reflexivity.
  - intros observations od x -> -> ->. reflexivity.
Qed.

Lemma compute_path_rewards_never_returns_witness :
  compute_path_rewards Slider.world Slider.hooks Slider.env0
    {[ "observations" := np.array1 [np.SFloat 1%float] ]}
  = Raise (NameError "reward_dict").
Proof.
  refine (proj1 (proj2 (compute_path_rewards_never_returns Slider.world Slider.hooks
                          Slider.env0 {[ "observations" := np.array1 [np.SFloat 1%float] ]}))
            (np.array1 [np.SFloat 1%float])
            {[ "t" := np.array0 (np.SFloat 0%float); "qp" := np.array1 [np.SFloat 1%float] ]}
            (Slider.reward_of
               {[ "t" := np.array0 (np.SFloat 0%float); "qp" := np.array1 [np.SFloat 1%float] ]})
            _ _ _); vm_compute; reflexivity.
Defined.

(** A [paths] without observations fails on the lookup, before any name
    is read: the error is a [KeyError], not an undefined name. *)
Lemma compute_path_rewards_key_error :
  compute_path_rewards Slider.world Slider.hooks Slider.env0 ∅
  = Raise (KeyError "observations").
Proof. reflexivity. Qed.

(** * What no method changes *)

Section Configuration.
Context {RS : Type} (W : World RS) (H : Hooks).
Implicit Type e : Env RS.

Lemma same_config_refl e : same_config e e.
Proof. unfold same_config. repeat split; reflexivity. Qed.

Lemma same_config_trans e1 e2 e3 :
  same_config e1 e2 -> same_config e2 e3 -> same_config e1 e3.
Proof.
  unfold same_config.
  intros (A1 & A2 & A3 & A4 & A5 & A6 & A7 & A8 & A9 & A10 & A11 & A12)
         (B1 & B2 & B3 & B4 & B5 & B6 & B7 & B8 & B9 & B10 & B11 & B12).
  repeat split; congruence.
Qed.

Lemma get_obs_same_config e : same_config e (snd (get_obs W H e)).
Proof.
  unfold get_obs, same_config. unfold_M. split_calls; simpl; repeat split; reflexivity.
Qed.

Lemma step_same_config e (a : list float) : same_config e (snd (step W H a e)).
Proof.
  unfold step, get_env_infos, get_obs, same_config. unfold_M.
  destruct (robot_step W (robot e) (sim e) (np.clip a (-1)%float 1%float)
              (act_normalized e) (dt e) (mujoco_render_frames e)) as [[r s] ctrl].
  split_calls; simpl; repeat split; reflexivity.
Qed.

Lemma reset_same_config e (q v : option (list float)) :
  same_config e (snd (reset W H q v e)).
Proof.
  unfold reset, robot_reset. unfold_M. cbv zeta. simpl.
  match goal with
  | |- context [get_obs W H ?e1] =>
      eapply (same_config_trans e e1); [|apply get_obs_same_config]
  end.
  unfold same_config. simpl. repeat split; reflexivity.
Qed.

Lemma set_state_same_config e (q v : list float) :
  same_config e (snd (set_state W q v e)).
Proof.
  unfold set_state, same_config. unfold_M.
  destruct ((length q =? model_nq (sim e))%nat && (length v =? model_nv (sim e))%nat);
    simpl; repeat split; reflexivity.
Qed.

Lemma seed_same_config e (s : option Z) : same_config e (snd (seed W s e)).
Proof.
  unfold seed, same_config. unfold_M.
  destruct (utils_seeding_np_random W s) as [[g s']|x];
    simpl; repeat split; reflexivity.
Qed.

Lemma reachable_same_config e0 e : reachable W H e0 e -> same_config e0 e.
Proof.
  induction 1 as [|e a _ IH|e q v _ IH|e q v _ IH|e s _ IH].
  - apply same_config_refl.
  - eapply same_config_trans; [exact IH|apply step_same_config].
  - eapply same_config_trans; [exact IH|apply reset_same_config].
  - eapply same_config_trans; [exact IH|apply set_state_same_config].
  - eapply same_config_trans; [exact IH|apply seed_same_config].
Qed.

End Configuration.

(** * Size of the observation (C3) *)

Section ObservationSize.
Context {RS : Type} (W : World RS) (H : Hooks).
Implicit Type e : Env RS.

Lemma reset_keeps e (q v : option (list float)) :
  obs_keys (snd (reset W H q v e)) = obs_keys e
  /\ obs_dim (snd (reset W H q v e)) = obs_dim e.
Proof.
  unfold reset, robot_reset. unfold_M. cbv zeta. simpl.
  match goal with
  | |- context [get_obs W H ?e1] =>
      pose proof (get_obs_keeps W H e1) as K; cbv zeta in K;
      destruct K as (_ & _ & Kk & Kd & _);
      destruct (get_obs W H e1) as [[obs|x] e2]; simpl in *;
      rewrite Kk, Kd; split; reflexivity
  end.
Qed.

Lemma set_state_keeps e (q v : list float) :
  obs_keys (snd (set_state W q v e)) = obs_keys e
  /\ obs_dim (snd (set_state W q v e)) = obs_dim e.
Proof.
  unfold set_state. unfold_M.
  destruct ((length q =? model_nq (sim e))%nat && (length v =? model_nv (sim e))%nat);
    simpl; split; reflexivity.
Qed.

Lemma seed_keeps e (s : option Z) :
  obs_keys (snd (seed W s e)) = obs_keys e
  /\ obs_dim (snd (seed W s e)) = obs_dim e.
Proof.
  unfold seed. unfold_M.
  destruct (utils_seeding_np_random W s) as [[g s']|x]; simpl; split; reflexivity.
Qed.

(** No method call changes the configured keys or the recorded size. *)
Lemma reachable_keeps e0 e :
  reachable W H e0 e -> obs_keys e = obs_keys e0 /\ obs_dim e = obs_dim e0.
Proof.
  induction 1 as [|e a _ [IHk IHd]|e q v _ [IHk IHd]|e q v _ [IHk IHd]|e s _ [IHk IHd]].
  - split; reflexivity.
  - pose proof (step_keeps W H e a) as K. cbv zeta in K.
    destruct (robot_step W (robot e) (sim e) (np.clip a (-1)%float 1%float)
                (act_normalized e) (dt e) (mujoco_render_frames e)) as [[r s] ctrl].
    destruct K as (_ & _ & Kk & Kd & _). split; congruence.
  - destruct (reset_keeps e q v). split; congruence.
  - destruct (set_state_keeps e q v). split; congruence.
  - destruct (seed_keeps e s). split; congruence.
Qed.

Lemma robot_phase_obs_keys e (a : list float) :
  obs_keys (robot_phase W a e) = obs_keys e.
Proof.
  unfold robot_phase.
  destruct (robot_step W (robot e) (sim e) (np.clip a (-1)%float 1%float)
              (act_normalized e) (dt e) (mujoco_render_frames e)) as [[r s] ctrl].
  reflexivity.
Qed.

(** Two dictionaries whose entries at the keys have the same sizes
    flatten to vectors of the same length. *)
Lemma concat_entries_length (d1 d2 : dict) (keys : list string) (v1 v2 : list float) :
  (forall k, In k keys -> np.size <$> (d1 !! k) = np.size <$> (d2 !! k)) ->
  concat_entries d1 keys = Ret v1 ->
  concat_entries d2 keys = Ret v2 ->
  length v1 = length v2.
Proof.
  revert v1 v2. induction keys as [|k keys IH]; intros v1 v2 Hs E1 E2; simpl in *.
  - injection E1 as <-. injection E2 as <-. reflexivity.
  - pose proof (Hs k (or_introl eq_refl)) as Hk. unfold getitem in *.
    destruct (d1 !! k) as [a1|]; [|discriminate].
    destruct (d2 !! k) as [a2|]; [|discriminate].
    destruct (concat_entries d1 keys) as [w1|]; [|discriminate].
    destruct (concat_entries d2 keys) as [w2|]; [|discriminate].
    injection E1 as <-. injection E2 as <-.
    simpl in Hk. injection Hk as Hk. unfold np.size in Hk.
    rewrite !length_app. unfold np.ravel. rewrite !length_map.
    rewrite Hk. f_equal. apply IH; auto.
Qed.

Lemma init_attributes_obs_keys (c : Config) e0 :
  init_attributes W c = Ret e0 -> obs_keys e0 = cfg_obs_keys c.
Proof.
  unfold init_attributes. intros E.
  destruct (utils_seeding_np_random W (cfg_seed c)) as [[g s']|x];
    split_calls_in E; injection E as <-; reflexivity.
Qed.

(** A returning [get_obs] has called the hook on [observed_sim] and
    flattened its result in the order of the configured keys. *)
Lemma get_obs_hook e (obs : list float) e2 :
  get_obs W H e = (Ret obs, e2) ->
  exists d, get_obs_dict H (observed_sim W e) = Ret d
            /\ concat_entries d (obs_keys e) = Ret obs.
Proof.
  unfold get_obs, obsdict2obsvec, observed_sim. unfold_M. intros E.
  destruct (robot_get_sensors W (robot e) (sim e)) as [r sen]. simpl in E.
  split_calls_in E. injection E as <- <-. simpl in *. eauto.
Qed.

(** The observation of a returning step is the flattening of what the
    hook gave for the simulator observed after the robot's move. *)
Lemma step_obs_hook e (a : list float) obs reward done info e' :
  step W H a e = (Ret (obs, reward, done, info), e') ->
  exists d, get_obs_dict H (observed_sim W (robot_phase W a e)) = Ret d
            /\ concat_entries d (obs_keys e) = Ret obs.
Proof.
  intros E. apply step_Ret in E. destruct E as (e2 & rwd & t & dense & sparse & solved &
    dn & Eo & _).
  apply get_obs_hook in Eo. destruct Eo as (d & Hd & Hc).
  rewrite robot_phase_obs_keys in Hc. eauto.
Qed.

End ObservationSize.

(** C3, as the code has it: take a constructed adapter, any calls made
    on it since, and a step that returns.  Provided the observation hook,
    on the simulator it is handed in this step, gives every configured key
    an array of the same size as on the simulator it was handed in the
    constructor's own step, the observation vector returned has the size
    [obs_dim] recorded at construction, which is also the length of both
    bounds of the declared observation space. *)
Theorem step_obs_size {RS : Type} (W : World RS) (H : Hooks) (c : Config)
    (ea e0 e : Env RS) (a : list float) (obs : list float) (reward : pyval)
    (done : bool) (info : EnvInfo) (e' : Env RS) :
  init_attributes W c = Ret ea ->
  __init__ W H c = Ret e0 ->
  reachable W H e0 e ->
  step W H a e = (Ret (obs, reward, done, info), e') ->
  fixed_entry_sizes H (cfg_obs_keys c)
    [observed_sim W (robot_phase W (np.zeros (model_nu (sim ea))) ea);
     observed_sim W (robot_phase W a e)] ->
  length obs = obs_dim e0
  /\ obs_dim e' = obs_dim e0
  /\ length (low (observation_space e')) = length obs
  /\ length (high (observation_space e')) = length obs.
Proof.
  intros Ea Ei Hreach Es Hfix.
  (* what the constructor recorded *)
  unfold __init__ in Ei. rewrite Ea in Ei.
  destruct (step W H (np.zeros (model_nu (sim ea))) ea)
    as [[[[[obs0 reward0] done0] info0]|x] e1] eqn:Es0; [|discriminate].
  destruct done0; [discriminate|]. injection Ei as <-.
  pose proof (init_attributes_obs_keys W c ea Ea) as Hka.
  pose proof (step_keeps W H ea (np.zeros (model_nu (sim ea)))) as K0. cbv zeta in K0.
  destruct (robot_step W (robot ea) (sim ea)
              (np.clip (np.zeros (model_nu (sim ea))) (-1)%float 1%float)
              (act_normalized ea) (dt ea) (mujoco_render_frames ea)) as [[r0 s0] ctrl0] eqn:Er0.
  rewrite Es0 in K0. simpl in K0. destruct K0 as (_ & _ & Kk0 & _).
  destruct (step_obs_hook W H _ _ _ _ _ _ _ Es0) as (d0 & Hd0 & Hc0).
  (* the later step *)
  destruct (reachable_keeps W H _ _ Hreach) as (Hk & Hd). simpl in Hk, Hd.
  destruct (step_obs_hook W H _ _ _ _ _ _ _ Es) as (d & Hd1 & Hc1).
  rewrite Hk, Kk0, Hka in Hc1. rewrite Hka in Hc0.
  assert (length obs = length obs0) as Hlen.
  { eapply concat_entries_length; [|exact Hc1|exact Hc0].
    intros k Hin.
    apply (Hfix (observed_sim W (robot_phase W a e))
             (observed_sim W (robot_phase W (np.zeros (model_nu (sim ea))) ea)) d d0 k);
      [right; left; reflexivity|left; reflexivity|exact Hd1|exact Hd0|exact Hin]. }
  pose proof (reachable_same_config W H _ _ Hreach) as Sr.
  pose proof (step_same_config W H e a) as Ss. rewrite Es in Ss. simpl in Ss.
  destruct (same_config_trans _ _ _ Sr Ss) as (_ & _ & _ & Sd & _ & _ & _ & _ & _ & So & _).
  simpl in Sd, So. rewrite So. simpl.
  rewrite !astype_float32_length. unfold np.scale, np.ones.
  rewrite !length_map, !repeat_length.
  repeat split; congruence.
Qed.

(** The slider's usual hook gives arrays as long as the joint vectors of
    the simulator it is handed. *)
Lemma slider_joint_sizes (calls : list MjSim) :
  (forall s, In s calls -> length (data_qpos s) = 1 /\ length (data_qvel s) = 1) ->
  fixed_entry_sizes Slider.joint_hooks ["qp"; "qv"] calls.
Proof.
  intros Hlen s1 s2 d1 d2 k I1 I2 E1 E2 Hk.
  destruct (Hlen s1 I1) as [P1 V1]. destruct (Hlen s2 I2) as [P2 V2].
  simpl in E1, E2. injection E1 as <-. injection E2 as <-.
  unfold Slider.joint_obs_of.
  destruct (data_qpos s1) as [|? [|? ?]]; try discriminate P1.
  destruct (data_qvel s1) as [|? [|? ?]]; try discriminate V1.
  destruct (data_qpos s2) as [|? [|? ?]]; try discriminate P2.
  destruct (data_qvel s2) as [|? [|? ?]]; try discriminate V2.
  destruct Hk as [<-|[<-|[]]]; vm_compute; reflexivity.
Qed.

Lemma step_obs_size_witness :
  exists e0 obs reward done info e',
    __init__ Slider.world Slider.joint_hooks Slider.config = Ret e0
    /\ step Slider.world Slider.joint_hooks [1%float]
         (snd (step Slider.world Slider.joint_hooks [1%float] e0))
       = (Ret (obs, reward, done, info), e')
    /\ length obs = obs_dim e0.
Proof.
  assert (exists ea e0 obs reward done info e',
             init_attributes Slider.world Slider.config = Ret ea
             /\ __init__ Slider.world Slider.joint_hooks Slider.config = Ret e0
             /\ step Slider.world Slider.joint_hooks [1%float]
                  (snd (step Slider.world Slider.joint_hooks [1%float] e0))
                = (Ret (obs, reward, done, info), e')
             /\ fixed_entry_sizes Slider.joint_hooks (cfg_obs_keys Slider.config)
                  [observed_sim Slider.world
                     (robot_phase Slider.world (np.zeros (model_nu (sim ea))) ea);
                   observed_sim Slider.world
                     (robot_phase Slider.world [1%float]
                        (snd (step Slider.world Slider.joint_hooks [1%float] e0)))])
    as (ea & e0 & obs & reward & done & info & e' & Ea & Ei & Es & Hfix).
  { do 7 eexists.
    split; [vm_compute; reflexivity|].
    split; [vm_compute; reflexivity|].
    split; [vm_compute; reflexivity|].
    apply slider_joint_sizes.
    intros s [<-|[<-|[]]]; split; vm_compute; reflexivity. }
  exists e0, obs, reward, done, info, e'.
  split; [exact Ei|]. split; [exact Es|].
  refine (proj1 (step_obs_size Slider.world Slider.joint_hooks Slider.config ea e0
                   (snd (step Slider.world Slider.joint_hooks [1%float] e0))
                   [1%float] obs reward done info e' Ea Ei _ Es Hfix)).
  exact (reach_step Slider.world Slider.joint_hooks e0 e0 [1%float]
           (reach_init Slider.world Slider.joint_hooks e0)).
Defined.

(** A subclass whose observation grows with time: the adapter is
    constructed with [obs_dim = 2] and its next step, on the valid action
    [0.0], returns three numbers. *)
Lemma obs_size_can_change :
  exists e0 obs reward done info e',
    __init__ Slider.world Slider.growing_hooks Slider.config = Ret e0
    /\ step Slider.world Slider.growing_hooks [0%float] e0
       = (Ret (obs, reward, done, info), e')
    /\ obs_dim e0 = 2
    /\ length obs = 3.
Proof.
  do 6 eexists.
  split; [vm_compute; reflexivity|].
  split; [vm_compute; reflexivity|].
  split; vm_compute; reflexivity.
Qed.

(** * Further properties of the adapter *)
(** X1: no sequence of [step], [reset], [set_state] and [seed] calls,
    returning or raising, changes what the constructor fixed: the recorded
    initial pose and velocity, the observation keys and size, the reward
    mode and keys, the action normalisation, the frame skip, the two
    spaces, the rendering flag and the episode spec. *)
Theorem configuration_frozen {RS : Type} (W : World RS) (H : Hooks) (e0 e : Env RS) :
  reachable W H e0 e -> same_config e0 e.
Proof. apply reachable_same_config. Qed.

Lemma configuration_frozen_witness : same_config Slider.env0 Slider.env2.
Proof.
  apply (configuration_frozen Slider.world Slider.hooks Slider.env0 Slider.env2).
  exact (reach_step Slider.world Slider.hooks Slider.env0 Slider.env1 [1%float]
           (reach_step Slider.world Slider.hooks Slider.env0 Slider.env0 [1%float]
              (reach_init Slider.world Slider.hooks Slider.env0))).
Defined.

(** X2: whatever calls were made on a constructed adapter, a [reset()]
    with no arguments puts the simulation back at the pose and velocity
    recorded at construction ([Robot.reset] taking the pose it is given). *)
Theorem reset_after_any_history {RS : Type} (W : World RS) (H : Hooks) (e0 e : Env RS) :
  reachable W H e0 e ->
  es_qpos (get_env_state (snd (reset W H None None e))) = init_qpos e0
  /\ es_qvel (get_env_state (snd (reset W H None None e))) = init_qvel e0.
Proof.
  intros R. destruct (reachable_same_config W H _ _ R) as (Hq & Hv & _).
  destruct (reset_pose W H e) as (Pq & Pv & _).
  unfold get_env_state. simpl. rewrite Pq, Pv. split; assumption.
Qed.

Lemma reset_after_any_history_witness :
  es_qpos (get_env_state (snd (reset Slider.world Slider.hooks None None Slider.env2)))
  = init_qpos Slider.env0.
Proof.
  refine (proj1 (reset_after_any_history Slider.world Slider.hooks Slider.env0 Slider.env2 _)).
  exact (reach_step Slider.world Slider.hooks Slider.env0 Slider.env1 [1%float]
           (reach_step Slider.world Slider.hooks Slider.env0 Slider.env0 [1%float]
              (reach_init Slider.world Slider.hooks Slider.env0))).
Defined.

(** * The reward a step returns *)

(** [env_info['rwd_' + m]]: only "dense", "sparse" and "dict" name a key. *)
Lemma env_info_getitem_rwd (i : EnvInfo) (m : string) :
  env_info_getitem i ("rwd_" ++ m)
  = if String.eqb m "dense" then Ret (info_rwd_dense i)
    else if String.eqb m "sparse" then Ret (info_rwd_sparse i)
    else if String.eqb m "dict" then Ret (PDict (info_rwd_dict i))
    else Raise (KeyError ("rwd_" ++ m)).
Proof.
  unfold env_info_getitem. simpl. change ("" +:+ m) with m.
  destruct (String.eqb m "dense") eqn:E1; [reflexivity|].
  destruct (String.eqb m "sparse") eqn:E2; [reflexivity|].
  destruct (String.eqb m "dict") eqn:E3; reflexivity.
Qed.

(** X3: the reward a returning step hands back is selected by [rwd_mode]:
    the "dense" entry of the step's reward dictionary for "dense", the
    "sparse" entry for "sparse", and the whole reward dictionary for
    "dict"; no other mode lets a step return. *)
Theorem step_reward_by_mode {RS : Type} (W : World RS) (H : Hooks) (e : Env RS)
    (a : list float) (obs : list float) (reward : pyval) (done : bool)
    (info : EnvInfo) (e' : Env RS) :
  step W H a e = (Ret (obs, reward, done, info), e') ->
  (rwd_mode e = "dense" ->
   exists d, rwd_dict e' !! "dense" = Some d /\ reward = item d
             /\ reward = info_rwd_dense info)
  /\ (rwd_mode e = "sparse" ->
      exists d, rwd_dict e' !! "sparse" = Some d /\ reward = item d
                /\ reward = info_rwd_sparse info)
  /\ (rwd_mode e = "dict" -> reward = PDict (rwd_dict e'))
  /\ (rwd_mode e = "dense" \/ rwd_mode e = "sparse" \/ rwd_mode e = "dict").
Proof.
  intros E.
  pose proof (step_keeps W H e a) as K. cbv zeta in K.
  destruct (robot_step W (robot e) (sim e) (np.clip a (-1)%float 1%float)
              (act_normalized e) (dt e) (mujoco_render_frames e)) as [[r s] ctrl].
  rewrite E in K. simpl in K. destruct K as (_ & _ & _ & _ & _ & _ & Km).
  apply step_Ret in E.
  destruct E as (e2 & rwd & t & dense & sparse & solved & dn & _ & _ & _ & _ & _ &
                 Hdense & Hsparse & _ & _ & -> & Hr & _).
  rewrite Km, env_info_getitem_rwd in Hr. simpl in Hr.
  repeat split.
  - intros M. rewrite M in Hr. simpl in Hr. injection Hr as <-. eauto.
  - intros M. rewrite M in Hr. simpl in Hr. injection Hr as <-. eauto.
  - intros M. rewrite M in Hr. simpl in Hr. injection Hr as <-. reflexivity.
  - destruct (String.eqb (rwd_mode e) "dense") eqn:E1;
      [apply String.eqb_eq in E1; auto|].
    destruct (String.eqb (rwd_mode e) "sparse") eqn:E2;
      [apply String.eqb_eq in E2; auto|].
    destruct (String.eqb (rwd_mode e) "dict") eqn:E3;
      [apply String.eqb_eq in E3; auto|discriminate].
Qed.

Lemma step_reward_by_mode_witness :
  exists d, rwd_dict Slider.env2 !! "dense" = Some d.
Proof.
  assert (exists o r i,
             step Slider.world Slider.hooks [1%float] Slider.env1
             = (Ret (o, r, true, i), Slider.env2)) as (o & r & i & E)
    by (vm_compute; eauto).
  destruct (proj1 (step_reward_by_mode Slider.world Slider.hooks Slider.env1
                     [1%float] o r true i Slider.env2 E))
    as (d & Hd & _).
  - vm_compute. reflexivity.
  - exists d. exact Hd.
Defined.

Section RewardMode.
Context {RS : Type} (W : World RS) (H : Hooks).
Implicit Type e : Env RS.

(** A step does not read the reward mode before its last line: run with
    another mode, a returning step reaches the lookup of ['rwd_' + mode]
    with the same observation, done flag, info and attributes. *)
Lemma step_with_rwd_mode e (a : list float) (m : string) :
  match step W H a e with
  | (Ret (obs, reward, done, info), e') =>
      step W H a (with_rwd_mode m e)
      = match env_info_getitem info ("rwd_" ++ m) with
        | Ret reward' => (Ret (obs, reward', done, info), with_rwd_mode m e')
        | Raise x => (Raise x, with_rwd_mode m e')
        end
  | (Raise x, e') => True
  end.
Proof.
  unfold step, get_env_infos, get_obs. unfold_M. simpl.
  change (dt (with_rwd_mode m e)) with (dt e).
  destruct (robot_step W (robot e) (sim e) (np.clip a (-1)%float 1%float)
              (act_normalized e) (dt e) (mujoco_render_frames e)) as [[r s] ctrl].
  simpl.
  destruct (robot_get_sensors W r s) as [r' sen]. simpl.
  destruct (get_obs_dict H (robot_sensor2sim W r' sen (sim_obsd e))) as [d|x]; simpl;
    [|eauto].
  destruct (obsdict2obsvec d (obs_keys e)) as [[t obs]|x]; simpl; [|eauto].
  destruct (get_reward_dict H (expand_dims W d)) as [rwd|x]; simpl; [|eauto].
  destruct (getitem (squeeze_dims W (expand_dims W d)) "t") as [vt|x]; simpl; [|eauto].
  destruct (getitem (squeeze_dims W rwd) "dense") as [vd|x]; simpl; [|eauto].
  destruct (getitem (squeeze_dims W rwd) "sparse") as [vs|x]; simpl; [|eauto].
  destruct (getitem (squeeze_dims W rwd) "solved") as [vo|x]; simpl; [|eauto].
  destruct (getitem (squeeze_dims W rwd) "done") as [vn|x]; simpl; [|eauto].
  change ("" +:+ m) with m. change ("" +:+ rwd_mode e) with (rwd_mode e).
  repeat (simpl;
          match goal with
          | |- context [py_bool ?v] => destruct (py_bool v)
          | |- context [env_info_getitem ?i ("rwd_" +:+ ?k)] =>
              destruct (env_info_getitem i ("rwd_" +:+ k))
          | |- context [String.eqb ?x ?y] => destruct (String.eqb x y)
          end);
    simpl; eauto.
Qed.

End RewardMode.

Lemma step_Ret_mode {RS : Type} (W : World RS) (H : Hooks) (e : Env RS)
    (a : list float) (r : list float * pyval * bool * EnvInfo) (e' : Env RS) :
  step W H a e = (Ret r, e') ->
  rwd_mode e = "dense" \/ rwd_mode e = "sparse" \/ rwd_mode e = "dict".
Proof.
  destruct r as [[[obs reward] done] info]. intros E.
  pose proof (step_keeps W H e a) as K. cbv zeta in K.
  destruct (robot_step W (robot e) (sim e) (np.clip a (-1)%float 1%float)
              (act_normalized e) (dt e) (mujoco_render_frames e)) as [[r s] ctrl].
  rewrite E in K. simpl in K. destruct K as (_ & _ & _ & _ & _ & _ & Km).
  apply step_Ret in E.
  destruct E as (e2 & rwd & t & dense & sparse & solved & dn & _ & _ & _ & _ & _ &
                 _ & _ & _ & _ & _ & Hr & _).
  rewrite Km, env_info_getitem_rwd in Hr.
  destruct (String.eqb (rwd_mode e) "dense") eqn:E1;
    [apply String.eqb_eq in E1; auto|].
  destruct (String.eqb (rwd_mode e) "sparse") eqn:E2;
    [apply String.eqb_eq in E2; auto|].
  destruct (String.eqb (rwd_mode e) "dict") eqn:E3;
    [apply String.eqb_eq in E3; auto|discriminate].
Qed.

(** X4: with a reward mode other than "dense", "sparse" and "dict" no
    step returns; and where the step of the same adapter under a valid
    mode returns, the step under such a mode [m] raises
    [KeyError('rwd_' + m)] at its last line only: the simulation, the
    observation and the reward dictionaries are updated exactly as in the
    returning step. *)
Theorem step_unknown_mode {RS : Type} (W : World RS) (H : Hooks) (m : string) :
  m <> "dense" -> m <> "sparse" -> m <> "dict" ->
  (forall (e : Env RS) (a : list float),
      returns (fst (step W H a (with_rwd_mode m e))) = false)
  /\ (forall (e : Env RS) (a : list float) obs reward done info e',
         step W H a e = (Ret (obs, reward, done, info), e') ->
         step W H a (with_rwd_mode m e)
         = (Raise (KeyError ("rwd_" ++ m)), with_rwd_mode m e')).
Proof.
  intros N1 N2 N3. split.
  - intros e a.
    destruct (step W H a (with_rwd_mode m e)) as [[r|x] e'] eqn:E; [|reflexivity].
    apply step_Ret_mode in E. simpl in E. destruct E as [E|[E|E]]; congruence.
  - intros e a obs reward done info e' E.
    pose proof (step_with_rwd_mode W H e a m) as K. rewrite E in K.
    rewrite K, env_info_getitem_rwd.
    destruct (String.eqb m "dense") eqn:E1; [apply String.eqb_eq in E1; congruence|].
    destruct (String.eqb m "sparse") eqn:E2; [apply String.eqb_eq in E2; congruence|].
    destruct (String.eqb m "dict") eqn:E3; [apply String.eqb_eq in E3; congruence|].
    reflexivity.
Qed.

Lemma step_unknown_mode_witness :
  step Slider.world Slider.hooks [1%float] (with_rwd_mode "dens" Slider.env1)
  = (Raise (KeyError "rwd_dens"), with_rwd_mode "dens" Slider.env2).
Proof.
  assert (exists o r i,
             step Slider.world Slider.hooks [1%float] Slider.env1
             = (Ret (o, r, true, i), Slider.env2)) as (o & r & i & E)
    by (vm_compute; eauto).
  refine (proj2 (step_unknown_mode Slider.world Slider.hooks "dens" _ _ _)
            Slider.env1 [1%float] o r true i Slider.env2 E); discriminate.
Defined.

(** X5: when [get_reward_dict] raises, the step raises the same
    exception after the robot has advanced the simulation and the
    observation has been rebuilt: [obs_dict] is left in its expanded form
    and [rwd_dict] is still the one of the previous step. *)
Theorem step_reward_hook_raises {RS : Type} (W : World RS) (H : Hooks) (e : Env RS)
    (a : list float) (obs : list float) (e2 : Env RS) (x : exn) :
  get_obs W H (robot_phase W a e) = (Ret obs, e2) ->
  get_reward_dict H (expand_dims W (obs_dict e2)) = Raise x ->
  step W H a e = (Raise x, set_obs_dict (expand_dims W (obs_dict e2)) e2)
  /\ rwd_dict e2 = rwd_dict e
  /\ sim e2 = sim (robot_phase W a e).
Proof.
  intros Eo Er. pose proof (get_obs_keeps W H (robot_phase W a e)) as K.
  cbv zeta in K. rewrite Eo in K. simpl in K.
  destruct K as (Ks & _ & _ & _ & _ & _ & _ & Kr).
  split; [|split; [|exact Ks]].
  - unfold step. unfold_M. unfold robot_phase in Eo.
    destruct (robot_step W (robot e) (sim e) (np.clip a (-1)%float 1%float)
                (act_normalized e) (dt e) (mujoco_render_frames e)) as [[r s] ctrl].
    rewrite Eo. simpl. rewrite Er. reflexivity.
  - rewrite Kr. unfold robot_phase.
    destruct (robot_step W (robot e) (sim e) (np.clip a (-1)%float 1%float)
                (act_normalized e) (dt e) (mujoco_render_frames e)) as [[r s] ctrl].
    reflexivity.
Qed.

Lemma step_reward_hook_raises_witness :
  fst (step Slider.world
         (mkHooks (get_obs_dict Slider.hooks) (fun _ => Raise (ValueError "no reward")))
         [0%float] Slider.env0)
  = Raise (ValueError "no reward").
Proof.
  assert (exists obs e2,
             get_obs Slider.world
               (mkHooks (get_obs_dict Slider.hooks) (fun _ => Raise (ValueError "no reward")))
               (robot_phase Slider.world [0%float] Slider.env0)
             = (Ret obs, e2)) as (obs & e2 & Eo)
    by (do 2 eexists; vm_compute; reflexivity).
  destruct (step_reward_hook_raises Slider.world
              (mkHooks (get_obs_dict Slider.hooks) (fun _ => Raise (ValueError "no reward")))
              Slider.env0 [0%float] obs e2 (ValueError "no reward") Eo eq_refl)
    as (E & _).
  rewrite E. reflexivity.
Defined.

(** * State injection, further *)

(** X6: [set_state] with a pose or a velocity of the wrong length raises
    the (message-less) assertion failure before anything is written: the
    adapter is exactly as it was. *)
Theorem set_state_bad_shape {RS : Type} (W : World RS) (e : Env RS)
    (qpos qvel : list float) :
  length qpos <> model_nq (sim e) \/ length qvel <> model_nv (sim e) ->
  set_state W qpos qvel e = (Raise (AssertionError ""), e).
Proof.
  intros Hbad. unfold set_state. unfold_M.
  destruct (length qpos =? model_nq (sim e))%nat eqn:Eq;
    destruct (length qvel =? model_nv (sim e))%nat eqn:Ev; simpl; try reflexivity.
  apply Nat.eqb_eq in Eq. apply Nat.eqb_eq in Ev. destruct Hbad; contradiction.
Qed.

Lemma set_state_bad_shape_witness :
  set_state Slider.world [0.25%float; 0.5%float] [0%float] Slider.env0
  = (Raise (AssertionError ""), Slider.env0).
Proof.
  apply (set_state_bad_shape Slider.world Slider.env0 [0.25%float; 0.5%float] [0%float]).
  left. vm_compute. discriminate.
Defined.

(** X7: a [set_state] that passes its assertion replaces the pose and the
    velocity and nothing else of the simulator state: the time, the
    actuator activations and the user-defined state are kept, as are the
    model and the mocap bodies, and the derived quantities are recomputed.
    The observed simulation, the robot and the cached observation and
    reward dictionaries are not refreshed. *)
Theorem set_state_touches_only_pose {RS : Type} (W : World RS) (e : Env RS)
    (qpos qvel : list float) :
  length qpos = model_nq (sim e) ->
  length qvel = model_nv (sim e) ->
  sim_get_state (sim (snd (set_state W qpos qvel e)))
  = mkMjSimState (data_time (sim e)) qpos qvel (data_act (sim e)) (udd_state (sim e))
  /\ data_derived (sim (snd (set_state W qpos qvel e)))
     = forward_kinematics W (sim_with_pose (sim e) qpos qvel)
  /\ model_nq (sim (snd (set_state W qpos qvel e))) = model_nq (sim e)
  /\ model_nv (sim (snd (set_state W qpos qvel e))) = model_nv (sim e)
  /\ data_mocap_pos (sim (snd (set_state W qpos qvel e))) = data_mocap_pos (sim e)
  /\ data_mocap_quat (sim (snd (set_state W qpos qvel e))) = data_mocap_quat (sim e)
  /\ sim_obsd (snd (set_state W qpos qvel e)) = sim_obsd e
  /\ robot (snd (set_state W qpos qvel e)) = robot e
  /\ obs_dict (snd (set_state W qpos qvel e)) = obs_dict e
  /\ rwd_dict (snd (set_state W qpos qvel e)) = rwd_dict e.
Proof.
  intros Hq Hv. unfold set_state. unfold_M.
  rewrite Hq, Hv, !Nat.eqb_refl. simpl. repeat split; reflexivity.
Qed.

Lemma set_state_touches_only_pose_witness :
  sim_obsd (snd (set_state Slider.world [0.25%float] [0.5%float] Slider.env1))
  = sim_obsd Slider.env1.
Proof.
  destruct (set_state_touches_only_pose Slider.world Slider.env1 [0.25%float] [0.5%float])
    as (_ & _ & _ & _ & _ & _ & Ho & _).
  - vm_compute. reflexivity.
  - vm_compute. reflexivity.
  - exact Ho.
Defined.

(** X8: saving and restoring: on a simulation whose pose and velocity
    have the model's sizes, [set_state] applied to the pose and velocity
    that [get_env_state] reports returns, and leaves the simulator state
    and the reported state exactly as they were. *)
Theorem set_state_of_get_env_state {RS : Type} (W : World RS) (e : Env RS) :
  length (data_qpos (sim e)) = model_nq (sim e) ->
  length (data_qvel (sim e)) = model_nv (sim e) ->
  fst (set_state W (es_qpos (get_env_state e)) (es_qvel (get_env_state e)) e) = Ret tt
  /\ sim_get_state
       (sim (snd (set_state W (es_qpos (get_env_state e)) (es_qvel (get_env_state e)) e)))
     = sim_get_state (sim e)
  /\ get_env_state
       (snd (set_state W (es_qpos (get_env_state e)) (es_qvel (get_env_state e)) e))
     = get_env_state e.
Proof.
  intros Hq Hv. unfold set_state, get_env_state. unfold_M. simpl.
  rewrite Hq, Hv, !Nat.eqb_refl. simpl. repeat split; reflexivity.
Qed.

Lemma set_state_of_get_env_state_witness :
  get_env_state
    (snd (set_state Slider.world (es_qpos (get_env_state Slider.env2))
            (es_qvel (get_env_state Slider.env2)) Slider.env2))
  = get_env_state Slider.env2.
Proof.
  destruct (set_state_of_get_env_state Slider.world Slider.env2) as (_ & _ & Hs).
  - vm_compute. reflexivity.
  - vm_compute. reflexivity.
  - exact Hs.
Defined.

(** * Construction, further *)

(** X9: the constructor fails before any robot is built or step taken
    when its simulators cannot be resolved: a [sim] without [sim_obsd] is
    an assertion failure, no [sim] and no [model_path] an attribute error,
    and a [model_path] whose file (taken as is when absolute, under the
    module's [assets] directory otherwise) does not exist an [IOError]
    naming that file.  Without [sim], a [sim_obsd] argument is ignored:
    both simulators are loaded from the file, after which a seed gym
    accepts lets the attributes be built and a negative one makes the
    constructor fail with gym's error. *)
Theorem constructor_resolves_sims {RS : Type} (W : World RS) (H : Hooks) (c : Config) :
  (forall s, cfg_sim c = Some s -> cfg_sim_obsd c = None ->
     __init__ W H c
     = Raise (AssertionError "sim and sim_obsd needs to be specified together, else model_path should be provided"))
  /\ (cfg_sim c = None -> cfg_model_path c = None ->
      __init__ W H c
      = Raise (AttributeError "'NoneType' object has no attribute 'startswith'"))
  /\ (forall p, cfg_sim c = None -> cfg_model_path c = Some p ->
        path_exists W (resolved_path W p) = false ->
        __init__ W H c
        = Raise (IOError ("File " ++ resolved_path W p ++ " does not exist")))
  /\ (forall p, cfg_sim c = None -> cfg_model_path c = Some p ->
        path_exists W (resolved_path W p) = true ->
        seed_accepted (cfg_seed c) ->
        exists e0, init_attributes W c = Ret e0
                   /\ sim e0 = load_model_from_path W (resolved_path W p)
                   /\ sim_obsd e0 = load_model_from_path W (resolved_path W p))
  /\ (forall p n, cfg_sim c = None -> cfg_model_path c = Some p ->
        path_exists W (resolved_path W p) = true ->
        cfg_seed c = Some n -> (n < 0)%Z ->
        __init__ W H c
        = Raise (GymError ("Seed must be a non-negative integer or omitted, not "
                           ++ pretty n))).
Proof.
  unfold __init__, init_attributes, get_sim, resolved_path. repeat split.
  - intros s -> ->. reflexivity.
  - intros -> ->. reflexivity.
  - intros p -> -> ->. reflexivity.
  - intros p -> -> -> Hs. rewrite (utils_seeding_np_random_accepted W _ Hs).
    destruct (seeding_np_random W (cfg_seed c)) as [g s'].
    eexists. repeat split; reflexivity.
  - intros p n -> -> -> Hs Hn.
    rewrite (utils_seeding_np_random_refused W _ _ Hs Hn). reflexivity.
Qed.

Lemma constructor_resolves_sims_witness :
  exists e0, init_attributes Slider.world Slider.config = Ret e0
             /\ sim e0 = Slider.fresh_sim.
Proof.
  destruct (proj1 (proj2 (proj2 (proj2
              (constructor_resolves_sims Slider.world Slider.hooks Slider.config))))
              "slider.xml" eq_refl eq_refl eq_refl) as (e0 & E0 & Es & _).
  - intros n [= <-]. lia.
  - exists e0. split; [exact E0|exact Es].
Defined.

Lemma init_attributes_fields {RS : Type} (W : World RS) (c : Config) (e0 : Env RS) :
  init_attributes W c = Ret e0 ->
  obs_keys e0 = cfg_obs_keys c /\ rwd_mode e0 = cfg_rwd_mode c
  /\ rwd_keys e0 = cfg_rwd_keys c /\ frame_skip e0 = cfg_frame_skip c
  /\ act_normalized e0 = cfg_act_normalized c
  /\ mujoco_render_frames e0 = false /\ spec_max_episode_steps e0 = None
  /\ action_space e0
     = (if cfg_act_normalized c
        then mkBox (repeat (-1)%float (model_nu (sim e0))) (repeat 1%float (model_nu (sim e0)))
        else mkBox (map as_float32 (map fst (model_actuator_ctrlrange (sim e0))))
                   (map as_float32 (map snd (model_actuator_ctrlrange (sim e0))))).
Proof.
  unfold init_attributes. intros E.
  assert (forall n, np.astype_float32 (map PrimFloat.opp (np.ones n)) = repeat (-1)%float n)
    as Hneg.
  { induction n as [|n IH]; [reflexivity|]. unfold np.ones, np.astype_float32 in *.
    simpl. f_equal. exact IH. }
  assert (forall n, np.astype_float32 (np.ones n) = repeat 1%float n) as Hpos.
  { intros n. unfold np.ones. rewrite astype_float32_repeat. reflexivity. }
  destruct (utils_seeding_np_random W (cfg_seed c)) as [[g s']|x];
    split_calls_in E; injection E as <-; simpl; unfold spaces_Box; rewrite ?Hneg, ?Hpos;
    repeat split; try reflexivity; destruct (cfg_act_normalized c); reflexivity.
Qed.

(** X10: a constructed adapter declares a float32 observation space whose
    two bounds have exactly [obs_dim] entries, each the corresponding end
    of [obs_range] times 1.0 cast to float32, and [obs_dim] is the size of
    the observation of the constructor's own step.  Its float32 action
    space is [-1,1]^nu when actions are normalised and the actuators'
    control ranges, cast to float32, otherwise (nu and the ranges being
    those of the simulation before that step); it starts with rendering
    off, no episode spec, and the keys, reward mode and frame skip it was
    given.  An end of [obs_range] that float32 cannot hold is thus moved
    to the nearest float32 ([as_float32_rounds]). *)
Theorem constructed_spaces {RS : Type} (W : World RS) (H : Hooks) (c : Config)
    (e : Env RS) :
  __init__ W H c = Ret e ->
  exists e0 : Env RS,
    init_attributes W c = Ret e0
    /\ length (low (observation_space e)) = obs_dim e
    /\ length (high (observation_space e)) = obs_dim e
    /\ low (observation_space e)
       = repeat (as_float32 (PrimFloat.mul (fst (cfg_obs_range c)) 1%float)) (obs_dim e)
    /\ high (observation_space e)
       = repeat (as_float32 (PrimFloat.mul (snd (cfg_obs_range c)) 1%float)) (obs_dim e)
    /\ (exists r, fst (step W H (np.zeros (model_nu (sim e0))) e0) = Ret r
                  /\ obs_dim e = length (fst (fst (fst r))))
    /\ action_space e
       = (if cfg_act_normalized c
          then mkBox (repeat (-1)%float (model_nu (sim e0)))
                     (repeat 1%float (model_nu (sim e0)))
          else mkBox (map as_float32 (map fst (model_actuator_ctrlrange (sim e0))))
                     (map as_float32 (map snd (model_actuator_ctrlrange (sim e0)))))
    /\ mujoco_render_frames e = false
    /\ spec_max_episode_steps e = None
    /\ obs_keys e = cfg_obs_keys c
    /\ rwd_mode e = cfg_rwd_mode c
    /\ frame_skip e = cfg_frame_skip c.
Proof.
  intros E. unfold __init__ in E.
  destruct (init_attributes W c) as [e0|x] eqn:E0; [|discriminate].
  destruct (init_attributes_fields W c e0 E0)
    as (Hk & Hm & _ & Hf & _ & Hr & Hs & Ha).
  pose proof (step_same_config W H e0 (np.zeros (model_nu (sim e0)))) as K.
  destruct (step W H (np.zeros (model_nu (sim e0))) e0)
    as [[[[[obs reward] done] info]|x] e1] eqn:Es; [|discriminate].
  destruct done; [discriminate|]. injection E as <-.
  simpl in K. destruct K as (_ & _ & Kk & _ & Km & _ & _ & Kf & Ka & _ & Kr & Ks).
  assert (forall (x : float) n,
             np.astype_float32 (np.scale x (np.ones n))
             = repeat (as_float32 (PrimFloat.mul x 1%float)) n)
    as Hscale.
  { intros x n. unfold np.astype_float32, np.scale, np.ones.
    induction n as [|n IH]; [reflexivity|]. simpl. f_equal. exact IH. }
  exists e0. simpl. rewrite !Hscale, !repeat_length.
  repeat split; try reflexivity; try congruence.
  exists (obs, reward, false, info). rewrite Es. split; reflexivity.
Qed.

Lemma constructed_spaces_witness :
  exists e : Env nat,
    __init__ Slider.world Slider.hooks Slider.config = Ret e
    /\ length (low (observation_space e)) = obs_dim e
    /\ low (observation_space e) = [(-10)%float; (-10)%float]
    /\ action_space e = mkBox [(-1)%float] [1%float].
Proof.
  assert (exists e : Env nat, __init__ Slider.world Slider.hooks Slider.config = Ret e)
    as (e & Ei) by (eexists; vm_compute; reflexivity).
  destruct (constructed_spaces Slider.world Slider.hooks Slider.config e Ei)
    as (e0 & E0 & Hl & _ & Hlow & _ & _ & Ha & _).
  exists e. split; [exact Ei|]. split; [exact Hl|].
  assert (Ret e = __init__ Slider.world Slider.hooks Slider.config) as Ee
    by (symmetry; exact Ei).
  vm_compute in Ee. injection Ee as ->. split; vm_compute; reflexivity.
Defined.

(** * Success evaluation, further *)

Lemma evaluate_success_unfold {RS : Type} (e : Env RS) (p : Path) (paths : list Path)
    (logger : option Logger) (s : Z) :
  evaluate_success e (p :: paths) logger s
  = match logger with
    | None => Ret (percentage (successes (p :: paths) s) (length (p :: paths)), None)
    | Some l =>
        match horizon e with
        | Raise x => Raise x
        | Ret h =>
            Ret (percentage (successes (p :: paths) s) (length (p :: paths)),
                 Some (l ++ [("rwd_sparse",
                              np.mean (map (fun q => np.mean (env_infos_rwd_sparse q))
                                         (p :: paths)));
                             ("rwd_dense",
                              np.mean (map (fun q => PrimFloat.div
                                                       (np.sum (env_infos_rwd_dense q))
                                                       (float_of_Z h)) (p :: paths)));
                             ("success_percentage",
                              percentage (successes (p :: paths) s)
                                (length (p :: paths)))])%list)
        end
    end.
Proof.
  unfold evaluate_success, percentage, float_of_nat, log_kv.
  rewrite count_success_successes.
  change (length (p :: paths) =? 0)%nat with false. cbv iota.
  destruct logger as [l|]; [|reflexivity].
  destruct (horizon e); [|reflexivity].
  rewrite <- !app_assoc. reflexivity.
Qed.

(** X11: with a logger and at least one trajectory, [evaluate_success]
    needs the episode spec: on an adapter that gym has not registered
    ([spec] is None) it raises [AttributeError] and logs nothing, although
    the same call without a logger returns.  With the spec bound it
    appends exactly three entries to the logger, in the order rwd_sparse,
    rwd_dense, success_percentage, the last being the value it returns. *)
Theorem evaluate_success_logging {RS : Type} (e : Env RS) (paths : list Path)
    (l : Logger) (s : Z) :
  paths <> [] ->
  (spec_max_episode_steps e = None ->
   evaluate_success e paths (Some l) s
   = Raise (AttributeError "'NoneType' object has no attribute 'max_episode_steps'")
   /\ returns (evaluate_success e paths None s) = true)
  /\ (forall h, spec_max_episode_steps e = Some h ->
        exists sparse dense,
          evaluate_success e paths (Some l) s
          = Ret (percentage (successes paths s) (length paths),
                 Some (l ++ [("rwd_sparse", sparse); ("rwd_dense", dense);
                             ("success_percentage",
                              percentage (successes paths s) (length paths))])%list)).
Proof.
  intros Hne. destruct paths as [|p paths]; [congruence|].
  rewrite !evaluate_success_unfold. unfold horizon. split.
  - intros ->. split; reflexivity.
  - intros h ->. eauto.
Qed.

Lemma evaluate_success_logging_witness :
  evaluate_success Slider.env0 Slider.three_paths (Some []) 1
  = Raise (AttributeError "'NoneType' object has no attribute 'max_episode_steps'").
Proof.
  refine (proj1 (proj1 (evaluate_success_logging Slider.env0 Slider.three_paths [] 1 _) _)).
  - discriminate.
  - vm_compute. reflexivity.
Defined.

Lemma successes_Permutation (paths paths' : list Path) (s : Z) :
  Permutation paths paths' -> successes paths s = successes paths' s.
Proof.
  unfold successes. induction 1 as [|p l l' _ IH|p q l|l l' l'' _ IH1 _ IH2]; simpl.
  - reflexivity.
  - destruct (successful s p); simpl; congruence.
  - destruct (successful s p), (successful s q); reflexivity.
  - congruence.
Qed.

(** X12: without a logger the result of [evaluate_success] does not
    depend on the order of the trajectories. *)
Theorem evaluate_success_order {RS : Type} (e : Env RS) (paths paths' : list Path) (s : Z) :
  Permutation paths paths' ->
  evaluate_success e paths None s = evaluate_success e paths' None s.
Proof.
  intros P. pose proof (Permutation_length P) as Hl.
  pose proof (successes_Permutation _ _ s P) as Hs.
  destruct paths as [|p paths], paths' as [|p' paths']; try discriminate Hl.
  - reflexivity.
  - rewrite !evaluate_success_unfold. rewrite Hs, Hl. reflexivity.
Qed.

Lemma evaluate_success_order_witness :
  evaluate_success Slider.env0 Slider.three_paths None 1
  = evaluate_success Slider.env0 (rev Slider.three_paths) None 1.
Proof.
  apply (evaluate_success_order Slider.env0 Slider.three_paths (rev Slider.three_paths) 1).
  apply Permutation_rev.
Defined.

Lemma successes_none (paths : list Path) (s : Z) :
  (forall p, In p paths -> (Z.of_nat (solved_steps p) <= s)%Z) ->
  successes paths s = 0.
Proof.
  unfold successes. induction paths as [|p paths IH]; intros Hall; simpl; [reflexivity|].
  assert (successful s p = false) as ->.
  { unfold successful. apply Z.ltb_ge. apply Hall. left. reflexivity. }
  apply IH. intros q Hq. apply Hall. right. exact Hq.
Qed.

Lemma successes_all (paths : list Path) (s : Z) :
  (forall p, In p paths -> (s < Z.of_nat (solved_steps p))%Z) ->
  successes paths s = length paths.
Proof.
  unfold successes. induction paths as [|p paths IH]; intros Hall; simpl; [reflexivity|].
  assert (successful s p = true) as ->.
  { unfold successful. apply Z.ltb_lt. apply Hall. left. reflexivity. }
  simpl. f_equal. apply IH. intros q Hq. apply Hall. right. exact Hq.
Qed.

(** X13: the threshold is strict.  When no trajectory is solved on more
    than [successful_steps] steps (being solved on exactly that many does
    not count) the result is 0*100.0/N; when every trajectory is, it is
    N*100.0/N. *)
Theorem evaluate_success_threshold {RS : Type} (e : Env RS) (paths : list Path) (s : Z) :
  paths <> [] ->
  ((forall p, In p paths -> (Z.of_nat (solved_steps p) <= s)%Z) ->
   evaluate_success e paths None s = Ret (percentage 0 (length paths), None))
  /\ ((forall p, In p paths -> (s < Z.of_nat (solved_steps p))%Z) ->
      evaluate_success e paths None s
      = Ret (percentage (length paths) (length paths), None)).
Proof.
  intros Hne. destruct paths as [|p paths]; [congruence|].
  rewrite !evaluate_success_unfold. split; intros Hall.
  - rewrite (successes_none _ _ Hall). reflexivity.
  - rewrite (successes_all _ _ Hall). reflexivity.
Qed.

Lemma evaluate_success_threshold_witness :
  evaluate_success Slider.env0 Slider.three_paths None 3
  = Ret (0%float, None).
Proof.
  refine (proj1 (evaluate_success_threshold Slider.env0 Slider.three_paths 3 _) _).
  - discriminate.
  - intros p [<-|[<-|[<-|[]]]]; vm_compute; discriminate.
Defined.

(** * Truncation of trajectories *)

Lemma slice_entries_Ok (n : nat) (l l' : list (string * np.ndarray)) :
  slice_entries n l = (Ok tt, l') ->
  Forall2 (fun ka ka' => fst ka' = fst ka /\ slice_first n (snd ka) = Ret (snd ka')) l l'.
Proof.
  revert l'. induction l as [|[k a] l IH]; intros l' E; simpl in E.
  - injection E as <-. constructor.
  - destruct (slice_first n a) as [a'|x] eqn:Ea; [|discriminate].
    destruct (slice_entries n l) as [r rest'] eqn:Er.
    injection E as -> <-. constructor; [split; [reflexivity|exact Ea]|].
    apply IH. reflexivity.
Qed.

Lemma truncate_path_Ok (p p' : TPath) :
  truncate_path p = (Ok tt, p') -> path_outcome p p'.
Proof.
  unfold truncate_path. intros E.
  destruct (tp_done p) as [[|first done]|] eqn:Ed; try discriminate.
  destruct (negb (List.last (first :: done) first)) eqn:El.
  - injection E as <-. apply negb_true_iff in El.
    eapply outcome_running; eauto. rewrite Ed. reflexivity.
  - apply negb_false_iff in El. destruct first; simpl negb in E; cbv iota in E.
    + injection E as <-. eapply outcome_untouched; eauto.
    + replace (count_not_done (false :: done) + 1 + 1)
        with (count_not_done (false :: done) + 2) in E by lia.
      destruct (slice_entries (count_not_done (false :: done) + 2) (tp_arrays p))
        as [[[]|x] arrays'] eqn:Es; [|discriminate].
      destruct (tp_terminated p) eqn:Et; [discriminate|].
      injection E as <-. eapply outcome_cut; eauto.
Qed.

Lemma truncate_each_Ok (paths paths' : list TPath) :
  truncate_each paths = (Ok tt, paths') -> Forall2 path_outcome paths paths'.
Proof.
  revert paths'. induction paths as [|p paths IH]; intros paths' E; simpl in E.
  - injection E as <-. constructor.
  - destruct (truncate_path p) as [[[]|x] p'] eqn:Ep; [|discriminate].
    destruct (truncate_each paths) as [r rest'] eqn:Er.
    injection E as -> <-. constructor.
    + apply truncate_path_Ok. exact Ep.
    + apply IH. reflexivity.
Qed.

Lemma truncate_paths_Ok (paths paths' : list TPath) :
  truncate_paths paths = (Ok tt, paths') ->
  paths <> [] /\ truncate_each paths = (Ok tt, paths').
Proof.
  unfold truncate_paths. destruct paths as [|p0 rest]; [discriminate|].
  destruct (assoc "rewards" (tp_arrays p0)); [|discriminate].
  destruct (first_axis n); [|discriminate].
  intros E. split; [discriminate|exact E].
Qed.

(** X14: when [truncate_paths] returns, it returns as many paths as it
    was given (at least one), each treated in one of three ways: a path
    whose last done flag is False keeps all its entries and is tagged
    terminated = False; a path whose first and last done flags are both
    True is returned untouched, without a terminated tag; any other path
    has its done flags and every array cut to (number of not-done steps +
    2) leading steps and is tagged terminated = True. *)
Theorem truncate_paths_outcomes (paths paths' : list TPath) :
  truncate_paths paths = (Ok tt, paths') ->
  paths <> [] /\ length paths' = length paths /\ Forall2 path_outcome paths paths'.
Proof.
  intros E. apply truncate_paths_Ok in E. destruct E as (Hne & E).
  apply truncate_each_Ok in E. split; [exact Hne|]. split; [|exact E].
  symmetry. eapply Forall2_length. exact E.
Qed.

Lemma truncate_paths_outcomes_witness :
  exists paths',
    truncate_paths [finished_path; running_path; stuck_path] = (Ok tt, paths')
    /\ length paths' = 3.
Proof.
  assert (exists paths',
             truncate_paths [finished_path; running_path; stuck_path] = (Ok tt, paths'))
    as (paths' & E) by (eexists; vm_compute; reflexivity).
  exists paths'. split; [exact E|].
  exact (proj1 (proj2 (truncate_paths_outcomes _ _ E))).
Defined.

Lemma truncate_each_fails (paths : list TPath) (p : TPath) :
  In p paths -> is_ok (fst (truncate_path p)) = false ->
  is_ok (fst (truncate_each paths)) = false.
Proof.
  induction paths as [|q paths IH]; intros Hin Hp; [destruct Hin|]. simpl.
  destruct (truncate_path q) as [[[]|x] q'] eqn:Eq; [|reflexivity].
  destruct Hin as [->|Hin]; [rewrite Eq in Hp; discriminate|].
  specialize (IH Hin Hp). destruct (truncate_each paths) as [r rest']. exact IH.
Qed.

Lemma truncate_paths_fails (paths : list TPath) (p : TPath) :
  In p paths -> is_ok (fst (truncate_path p)) = false ->
  is_ok (fst (truncate_paths paths)) = false.
Proof.
  intros Hin Hp. unfold truncate_paths. destruct paths as [|p0 rest]; [reflexivity|].
  destruct (assoc "rewards" (tp_arrays p0)); [|reflexivity].
  destruct (first_axis n); [|reflexivity].
  eapply truncate_each_fails; eauto.
Qed.

(** X15: [truncate_paths] raises [IndexError] on an empty list and
    [KeyError] when the first path has no "rewards" entry, in both cases
    without touching any path; and it does not return when some path has
    no "done" entry or an empty one. *)
Theorem truncate_paths_errors :
  truncate_paths [] = (Err (Exn (IndexError "list index out of range")), [])
  /\ (forall p rest,
         assoc "rewards" (tp_arrays p) = None ->
         truncate_paths (p :: rest) = (Err (Exn (KeyError "rewards")), p :: rest))
  /\ (forall paths p,
         In p paths -> tp_done p = None \/ tp_done p = Some [] ->
         is_ok (fst (truncate_paths paths)) = false).
Proof.
  split; [reflexivity|]. split.
  - intros p rest E. unfold truncate_paths. rewrite E. reflexivity.
  - intros paths p Hin Hd. eapply truncate_paths_fails; [exact Hin|].
    unfold truncate_path. destruct Hd as [-> | ->]; reflexivity.
Qed.

(** X16: [truncate_paths] cannot truncate a path that already carries a
    "terminated" entry: a list holding a path whose done flags start False
    and end True and that has the entry makes it raise (the Python bool
    cannot be sliced).  In particular it cannot be applied twice: on its
    own result it raises whenever that holds a path it has cut whose done
    flags still end True. *)
Theorem truncate_paths_flagged (paths : list TPath) (p : TPath) (done : list bool)
    (b : bool) :
  In p paths ->
  tp_done p = Some (false :: done) ->
  List.last (false :: done) false = true ->
  tp_terminated p = Some b ->
  is_ok (fst (truncate_paths paths)) = false
  /\ (forall arrays', slice_entries (count_not_done (false :: done) + 2) (tp_arrays p)
                     = (Ok tt, arrays') ->
        fst (truncate_path p) = Err (TypeError "'bool' object is not subscriptable")).
Proof.
  intros Hin Hd Hl Ht.
  assert (forall arrays',
             slice_entries (count_not_done (false :: done) + 2) (tp_arrays p)
             = (Ok tt, arrays') ->
             fst (truncate_path p) = Err (TypeError "'bool' object is not subscriptable"))
    as Htype.
  { intros arrays' Es. unfold truncate_path. rewrite Hd, Hl. simpl negb. cbv iota.
    replace (count_not_done (false :: done) + 1 + 1)
      with (count_not_done (false :: done) + 2) by lia.
    rewrite Es, Ht. reflexivity. }
  split; [|exact Htype].
  eapply truncate_paths_fails; [exact Hin|].
  destruct (slice_entries (count_not_done (false :: done) + 2) (tp_arrays p))
    as [[[]|x] arrays'] eqn:Es.
  - rewrite (Htype _ eq_refl). reflexivity.
  - unfold truncate_path. rewrite Hd, Hl. simpl negb. cbv iota.
    replace (count_not_done (false :: done) + 1 + 1)
      with (count_not_done (false :: done) + 2) by lia.
    rewrite Es. reflexivity.
Qed.

Lemma truncate_paths_flagged_witness :
  is_ok (fst (truncate_paths
                (snd (truncate_paths [finished_path; running_path; stuck_path]))))
  = false.
Proof.
  refine (proj1 (truncate_paths_flagged
                   (snd (truncate_paths [finished_path; running_path; stuck_path]))
                   (mkTPath
                      [("observations", np.NdArray [5; 2] (map np.SFloat
                          [0; 0; 1; 0; 2; 0; 3; 0; 4; 0]%float));
                       ("rewards", np.NdArray [5] (map np.SFloat [0; 0; 0; 1; 1]%float))]
                      (Some [false; false; false; true; true]) (Some true))
                   [false; false; true; true] true _ _ _ _)).
  - vm_compute. left. reflexivity.
  - reflexivity.
  - reflexivity.
  - reflexivity.
Defined.

Lemma count_not_done_episode (F T : nat) :
  count_not_done (repeat false F ++ repeat true T) = F.
Proof.
  unfold count_not_done. induction F as [|F IH]; simpl.
  - induction T as [|T IH]; simpl; [reflexivity|exact IH].
  - f_equal. exact IH.
Qed.

Lemma take_episode (F T : nat) :
  take (F + 2) (repeat false F ++ repeat true T)
  = (repeat false F ++ repeat true (Nat.min 2 T))%list.
Proof.
  induction F as [|F IH]; simpl.
  - destruct T as [|[|T]]; reflexivity.
  - f_equal. exact IH.
Qed.

Lemma last_episode (F T : nat) (d : bool) :
  1 <= T -> List.last (repeat false F ++ repeat true T) d = true.
Proof.
  intros HT. destruct T as [|T]; [lia|].
  replace (repeat true (S T)) with (repeat true T ++ [true])%list
    by (symmetry; apply (repeat_cons T true)).
  rewrite app_assoc. apply List.last_last.
Qed.

(** X17: an episode that is not done on its first F >= 1 steps and done
    on its last T >= 1 steps comes out of a returning [truncate_paths]
    with all F not-done steps and min(2, T) done steps: its done flags and
    every array are cut to F + 2 leading steps, and it is tagged
    terminated = True. *)
Theorem truncate_paths_episode (paths paths' : list TPath) (i : nat) (p : TPath)
    (F T : nat) :
  truncate_paths paths = (Ok tt, paths') ->
  paths !! i = Some p ->
  tp_done p = Some (repeat false F ++ repeat true T)%list ->
  1 <= F -> 1 <= T ->
  exists p',
    paths' !! i = Some p'
    /\ tp_done p' = Some (repeat false F ++ repeat true (Nat.min 2 T))%list
    /\ tp_terminated p' = Some true
    /\ Forall2 (fun ka ka' => fst ka' = fst ka
                              /\ slice_first (F + 2) (snd ka) = Ret (snd ka'))
         (tp_arrays p) (tp_arrays p').
Proof.
  intros E Hi Hd HF HT.
  apply truncate_paths_Ok in E. destruct E as (_ & E). apply truncate_each_Ok in E.
  destruct (Forall2_lookup_l _ _ _ _ _ E Hi) as (p' & Hi' & Ho).
  exists p'. split; [exact Hi'|].
  pose proof (last_episode F T false HT) as Hlast.
  pose proof (count_not_done_episode F T) as Hcount.
  pose proof (take_episode F T) as Htake.
  destruct F as [|F]; [lia|]. change (repeat false (S F)) with (false :: repeat false F) in *.
  simpl app in *.
  destruct Ho as [first done Hd' Hl ->|done Hd' Hl ->|done arrays' Hd' Hl Ht Hs ->];
    rewrite Hd in Hd'.
  - injection Hd' as <- <-. congruence.
  - discriminate Hd'.
  - injection Hd' as <-. rewrite Hcount in *. rewrite Htake. simpl.
    repeat split; try reflexivity.
    apply slice_entries_Ok. exact Hs.
Qed.

Lemma truncate_paths_episode_witness :
  exists p',
    snd (truncate_paths [finished_path; running_path; stuck_path]) !! 0 = Some p'
    /\ tp_done p' = Some [false; false; false; true; true].
Proof.
  assert (exists paths',
             truncate_paths [finished_path; running_path; stuck_path] = (Ok tt, paths'))
    as (paths' & E) by (eexists; vm_compute; reflexivity).
  destruct (truncate_paths_episode [finished_path; running_path; stuck_path] paths' 0
              finished_path 3 3 E eq_refl eq_refl) as (p' & Hi & Hd & _).
  - lia.
  - lia.
  - exists p'. rewrite E. split; [exact Hi|exact Hd].
Defined.

Lemma slice_first_axis (n : nat) (a a' : np.ndarray) (h : nat) :
  slice_first n a = Ret a' -> first_axis_len a = Some h ->
  first_axis_len a' = Some (Nat.min n h).
Proof.
  unfold slice_first, first_axis_len. destruct (np.shape a) as [|h' rest]; [discriminate|].
  intros [= <-] [= <-]. reflexivity.
Qed.

Lemma path_outcome_aligned (p p' : TPath) :
  path_outcome p p' -> aligned p -> aligned p'.
Proof.
  intros [first done Hd Hl ->|done Hd Hl ->|done arrays' Hd Hl Ht Hs ->]
         (done0 & Hd0 & Hall); try (exists done0; split; assumption).
  rewrite Hd in Hd0. injection Hd0 as <-.
  eexists. split; [reflexivity|]. rewrite length_take.
  apply slice_entries_Ok in Hs. revert Hall. clear -Hs.
  induction Hs as [|[k a] [k' a'] l l' [_ Hslice] _ IH]; intros Hall; constructor.
  - apply Forall_inv in Hall. simpl in *.
    apply (slice_first_axis _ _ _ _ Hslice Hall).
  - apply IH. eapply Forall_inv_tail. exact Hall.
Qed.

(** X18: truncation keeps a path aligned: if, in every path given, each
    array has as many steps along its first axis as there are done flags,
    the same holds of every path a returning [truncate_paths] hands back. *)
Theorem truncate_paths_aligned (paths paths' : list TPath) :
  truncate_paths paths = (Ok tt, paths') ->
  Forall aligned paths -> Forall aligned paths'.
Proof.
  intros E. apply truncate_paths_Ok in E. destruct E as (_ & E).
  apply truncate_each_Ok in E.
  induction E as [|p p' l l' Ho _ IH]; intros Hall; constructor.
  - apply (path_outcome_aligned p p' Ho). eapply Forall_inv. exact Hall.
  - apply IH. eapply Forall_inv_tail. exact Hall.
Qed.

Lemma truncate_paths_aligned_witness :
  Forall aligned (snd (truncate_paths [finished_path; running_path; stuck_path])).
Proof.
  assert (exists paths',
             truncate_paths [finished_path; running_path; stuck_path] = (Ok tt, paths'))
    as (paths' & E) by (eexists; vm_compute; reflexivity).
  rewrite E. simpl snd.
  apply (truncate_paths_aligned [finished_path; running_path; stuck_path] paths' E).
  repeat constructor; eexists; (split; [reflexivity|]); repeat constructor.
Defined.

(** * Seeding and the data flow of a step *)

Section DataFlow.
Context {RS : Type} (W : World RS) (H : Hooks).
Implicit Type e : Env RS.

(** A step neither reads nor writes the adapter's generator. *)
Lemma step_set_np_random e (a : list float) (g : Z) :
  step W H a (set_np_random g e)
  = (fst (step W H a e), set_np_random g (snd (step W H a e))).
Proof.
  unfold step, get_env_infos, get_obs. unfold_M. simpl.
  change (dt (set_np_random g e)) with (dt e).
  destruct (robot_step W (robot e) (sim e) (np.clip a (-1)%float 1%float)
              (act_normalized e) (dt e) (mujoco_render_frames e)) as [[r s] ctrl].
  simpl.
  destruct (robot_get_sensors W r s) as [r' sen]. simpl.
  destruct (get_obs_dict H (robot_sensor2sim W r' sen (sim_obsd e))) as [d|x]; simpl;
    [|reflexivity].
  destruct (obsdict2obsvec d (obs_keys e)) as [[t obs]|x]; simpl; [|reflexivity].
  destruct (get_reward_dict H (expand_dims W d)) as [rwd|x]; simpl; [|reflexivity].
  destruct (getitem (squeeze_dims W (expand_dims W d)) "t") as [vt|x]; simpl; [|reflexivity].
  destruct (getitem (squeeze_dims W rwd) "dense") as [vd|x]; simpl; [|reflexivity].
  destruct (getitem (squeeze_dims W rwd) "sparse") as [vs|x]; simpl; [|reflexivity].
  destruct (getitem (squeeze_dims W rwd) "solved") as [vo|x]; simpl; [|reflexivity].
  destruct (getitem (squeeze_dims W rwd) "done") as [vn|x]; simpl; [|reflexivity].
  repeat (simpl;
          match goal with
          | |- context [py_bool ?v] => destruct (py_bool v)
          | |- context [env_info_getitem ?i ("rwd_" +:+ ?k)] =>
              destruct (env_info_getitem i ("rwd_" +:+ k))
          | |- context [String.eqb ?x ?y] => destruct (String.eqb x y)
          end);
    reflexivity.
Qed.

(** The chain of a returning step: the sensors are read from the
    simulation the robot has just advanced, the observed simulation is
    rebuilt from them, and both dictionaries come from it. *)
Lemma step_Ret_chain e (a : list float) obs reward done info e' :
  step W H a e = (Ret (obs, reward, done, info), e') ->
  exists r s ctrl r' sen d rwd,
    robot_step W (robot e) (sim e) (np.clip a (-1)%float 1%float)
      (act_normalized e) (dt e) (mujoco_render_frames e) = (r, s, ctrl)
    /\ robot_get_sensors W r s = (r', sen)
    /\ sim e' = s /\ robot e' = r'
    /\ sim_obsd e' = robot_sensor2sim W r' sen (sim_obsd e)
    /\ get_obs_dict H (sim_obsd e') = Ret d
    /\ get_reward_dict H (expand_dims W d) = Ret rwd
    /\ obs_dict e' = squeeze_dims W (expand_dims W d)
    /\ rwd_dict e' = squeeze_dims W rwd
    /\ info_obs_dict info = obs_dict e'
    /\ info_rwd_dict info = rwd_dict e'.
Proof.
  unfold step, get_env_infos, get_obs. unfold_M.
  destruct (robot_step W (robot e) (sim e) (np.clip a (-1)%float 1%float)
              (act_normalized e) (dt e) (mujoco_render_frames e)) as [[r s] ctrl].
  simpl. destruct (robot_get_sensors W r s) as [r' sen] eqn:Esen. simpl.
  intros E. split_calls_in E. simpl in *.
  injection E as <- <- <- <- <-. simpl.
  exists r, s, ctrl, r', sen. do 2 eexists.
  repeat split; eauto.
Qed.

End DataFlow.

(** X19: [seed] with a seed gym accepts (none, or a non-negative
    integer) returns the one-element list holding the seed gym used and
    rebinds the adapter's generator; with a negative seed it raises gym's
    error and leaves the adapter exactly as it was.  Either way the
    simulation and the robot (which keeps the generator it was built with)
    are untouched, and a step taken after the call returns exactly what it
    would have returned without it. *)
Theorem seed_leaves_steps_alone {RS : Type} (W : World RS) (H : Hooks) (e : Env RS)
    (s : option Z) (a : list float) :
  (seed_accepted s ->
     seed W s e = (Ret [snd (seeding_np_random W s)],
                   set_np_random (fst (seeding_np_random W s)) e))
  /\ (forall n, s = Some n -> (n < 0)%Z ->
        seed W s e
        = (Raise (GymError ("Seed must be a non-negative integer or omitted, not "
                            ++ pretty n)), e))
  /\ sim (snd (seed W s e)) = sim e
  /\ robot (snd (seed W s e)) = robot e
  /\ fst (step W H a (snd (seed W s e))) = fst (step W H a e)
  /\ sim (snd (step W H a (snd (seed W s e)))) = sim (snd (step W H a e)).
Proof.
  split; [|split].
  - intros Hs. unfold seed. unfold_M. rewrite (utils_seeding_np_random_accepted W s Hs).
    destruct (seeding_np_random W s) as [g s']. reflexivity.
  - intros n Hs Hn. unfold seed. unfold_M.
    rewrite (utils_seeding_np_random_refused W s n Hs Hn). reflexivity.
  - unfold seed. unfold_M.
    destruct (utils_seeding_np_random W s) as [[g s']|x]; simpl.
    + rewrite step_set_np_random. simpl. repeat split; reflexivity.
    + repeat split; reflexivity.
Qed.

Lemma seed_leaves_steps_alone_witness :
  (exists e : Env nat,
      seed Slider.world (Some 7%Z) Slider.env0 = (Ret [7%Z], e) /\ np_random e = 7%Z)
  /\ seed Slider.world (Some (-1)%Z) Slider.env0
     = (Raise (GymError "Seed must be a non-negative integer or omitted, not -1"),
        Slider.env0).
Proof.
  split.
  - eexists. split.
    + refine (proj1 (seed_leaves_steps_alone Slider.world Slider.hooks Slider.env0
                       (Some 7%Z) []) _).
      intros n [= <-]. lia.
    + reflexivity.
  - refine (proj1 (proj2 (seed_leaves_steps_alone Slider.world Slider.hooks Slider.env0
                            (Some (-1)%Z) [])) (-1)%Z eq_refl _).
    lia.
Defined.

(** X20: the reward of a returning step is computed from the observation
    of the state that step reached: the sensors are read from the
    simulation after the robot has applied the action, the observed
    simulation is rebuilt from them, [get_obs_dict] is called on it, and
    [get_reward_dict] on the (expanded) result; the info carries those two
    dictionaries, squeezed, and they are the adapter's [obs_dict] and
    [rwd_dict]. *)
Theorem step_reward_from_new_observation {RS : Type} (W : World RS) (H : Hooks)
    (e : Env RS) (a : list float) (obs : list float) (reward : pyval) (done : bool)
    (info : EnvInfo) (e' : Env RS) :
  step W H a e = (Ret (obs, reward, done, info), e') ->
  exists d rwd,
    sim e' = sim (robot_phase W a e)
    /\ sim_obsd e'
       = robot_sensor2sim W (robot e')
           (snd (robot_get_sensors W (robot (robot_phase W a e)) (sim (robot_phase W a e))))
           (sim_obsd e)
    /\ get_obs_dict H (sim_obsd e') = Ret d
    /\ get_reward_dict H (expand_dims W d) = Ret rwd
    /\ info_obs_dict info = squeeze_dims W (expand_dims W d)
    /\ info_rwd_dict info = squeeze_dims W rwd
    /\ obs_dict e' = info_obs_dict info
    /\ rwd_dict e' = info_rwd_dict info.
Proof.
  intros E. apply step_Ret_chain in E.
  destruct E as (r & s & ctrl & r' & sen & d & rwd & Er & Es & Hs & Hr & Ho & Hd & Hw &
                 Hod & Hrd & Hio & Hir).
  exists d, rwd. unfold robot_phase. rewrite Er. simpl. rewrite Es. simpl.
  repeat split; congruence.
Qed.

Lemma step_reward_from_new_observation_witness :
  exists d rwd,
    get_obs_dict Slider.hooks (sim_obsd Slider.env2) = Ret d
    /\ get_reward_dict Slider.hooks (expand_dims Slider.world d) = Ret rwd
    /\ rwd_dict Slider.env2 = squeeze_dims Slider.world rwd.
Proof.
  assert (exists o r i,
             step Slider.world Slider.hooks [1%float] Slider.env1
             = (Ret (o, r, true, i), Slider.env2)) as (o & r & i & E)
    by (vm_compute; eauto).
  destruct (step_reward_from_new_observation Slider.world Slider.hooks Slider.env1
              [1%float] o r true i Slider.env2 E)
    as (d & rwd & _ & _ & Hd & Hr & _ & Hir & _ & Hrd).
  exists d, rwd. repeat split; congruence.
Defined.
